(** * DroneConroler: formation flying controller and single-drone flight controller

    Shallow embedding of [Software/Common/Drone.py] (classes [FormationDrone]
    and [ArduPilotFormationController]) and of
    [Software/Common/flight_controller.py] (class [DroneController]).

    Modelling conventions.
    - Python [int] values are [Z].  In [Drone.py], and for clock readings,
      Python [float] values are idealised as real numbers ([R]); rounding,
      infinities and NaN are outside that part of the model.  Where the
      outcome of a method turns on rounding, the numbers are IEEE 754
      binary64 values ([float]), computed as CPython computes them: the
      altitude tests of [DroneController.takeoff] and the travel time of
      [DroneController.move_forward].  A numeric argument of these two
      methods is the binary64 number of that value.
    - Everything the program observes from outside (service replies, clock
      readings, received MAVLink messages, ROS callbacks) is an explicit input;
      everything it does to the outside (service calls, published setpoints,
      MAVLink sends, [time.sleep]) is an event appended to a trace.
    - Loops that wait on the outside world recurse on the list of inputs they
      consume; [None] means that the inputs ran out while the loop was still
      running.
    - Callbacks that rclpy may run while a call waits on a future (state
      updates, the control timer) are not interleaved with that call: an
      operation runs on the session flags it starts with.  [spin_once] is
      modelled by the state callback it delivers, if any.
    - Division is modelled as an operation that may raise where the formation
      patterns divide and where [move_forward] divides by the speed;
      elsewhere the divisor is a non-zero literal or a distance already
      tested to exceed 0.1, and the quotient is written directly.
    - [time.sleep] returns for the literal durations of the program; for
      the computed duration of [move_forward] its outcome, a return or the
      exception it raises, is an input.
    - Logger calls and [print] have no influence on state or control flow and
      are left out. *)

From Stdlib Require Import Floats.PrimFloat Floats.SpecFloat Floats.FloatOps.
From Stdlib Require Import Reals Lra Lia ZArith List Bool.
From stdpp Require Import gmap strings list.
Import ListNotations.
Set Warnings "-inexact-float".

(** ** Python primitives used by the program *)

Module Py.

Inductive exn : Set := ZeroDivisionError | IndexError.

(** Outcome of evaluating an expression that may raise. *)
Inductive result (A : Type) : Type :=
| Ok (a : A)
| Raise (e : exn).
Arguments Ok {A} a.
Arguments Raise {A} e.

Definition bind {A B} (r : result A) (k : A -> result B) : result B :=
  match r with
  | Ok a => k a
  | Raise e => Raise e
  end.

(** [len(l)] *)
Definition len {A} (l : list A) : Z := Z.of_nat (length l).

(** [a / b] on numbers: true division, raising on a zero divisor. *)
Definition truediv (a b : R) : result R :=
  if Req_dec_T b 0 then Raise ZeroDivisionError else Ok (a / b)%R.

(** [enumerate(l)] *)
Fixpoint enumerate_from {A} (i : Z) (l : list A) : list (Z * A) :=
  match l with
  | [] => []
  | x :: l' => (i, x) :: enumerate_from (i + 1) l'
  end.

Definition enumerate {A} (l : list A) : list (Z * A) := enumerate_from 0 l.

(** [range(a, b)] *)
Definition range (a b : Z) : list Z :=
  map (fun k => (a + Z.of_nat k)%Z) (seq 0 (Z.to_nat (b - a))).

(** [l[i]], with Python's negative indices and [IndexError]. *)
Definition getitem {A} (l : list A) (i : Z) : result A :=
  let j := if (i <? 0)%Z then (i + len l)%Z else i in
  if (j <? 0)%Z then Raise IndexError
  else match nth_error l (Z.to_nat j) with
       | Some x => Ok x
       | None => Raise IndexError
       end.

(** [a < b], [a > b] and [a >= b] on numbers. *)
Definition lt (a b : R) : bool := if Rlt_dec a b then true else false.
Definition gt (a b : R) : bool := if Rgt_dec a b then true else false.
Definition ge (a b : R) : bool := if Rge_dec a b then true else false.

(** [min(a, b)] and [max(a, b)]: the first argument wins ties. *)
Definition min (a b : R) : R := if lt b a then b else a.
Definition max (a b : R) : R := if gt b a then b else a.

(** [sum(l)] on integers *)
Definition sum (l : list Z) : Z := fold_left Z.add l 0%Z.

(** [for x in xs: body], threading the loop-carried state, stopping at the
    first exception. *)
Fixpoint for_each {A S} (xs : list A) (body : A -> S -> result S) (s : S)
  : result S :=
  match xs with
  | [] => Ok s
  | x :: xs' => bind (body x s) (for_each xs' body)
  end.

(** [float(n)] for an integer [n], as the conversion that precedes [n / x]
    when [x] is a float: the nearest binary64 number, ties to even.  It is
    exact for every [n] of magnitude up to 2^53, which covers the 32-bit
    integer fields of MAVLink messages. *)
Definition float_of_int (n : Z) : float :=
  SF2Prim (binary_normalize prec emax n 0 false).

(** [a < b], [a >= b] and [a == b] on binary64 numbers: the IEEE 754
    comparisons, false whenever an operand is NaN, with [0.0 == -0.0]. *)
Definition flt (a b : float) : bool := (a <? b)%float.
Definition fge (a b : float) : bool := (b <=? a)%float.

End Py.

Declare Scope py_scope.
Delimit Scope py_scope with py.
Notation "x <- e ;; k" := (Py.bind e (fun x => k))
  (at level 100, e at next level, right associativity) : py_scope.

(** ** Drone.py *)

Module Drone.
Import Py.

(** A point or velocity: the 3-tuples and 3-element lists of the source. *)
Definition Vec3 : Type := R * R * R.

(** [mavros_msgs/State], the fields the program reads. *)
Record State : Type := {
  state_connected : bool;
  state_armed : bool;
  state_mode : string
}.

(** The fields of [FormationDrone] that hold state. *)
Record FormationDrone : Type := {
  drone_id : string;
  namespace : string;
  current_state : State;
  connected : bool;
  position : Vec3;
  target_position : Vec3
}.

(** The fields of [ArduPilotFormationController] that hold state. *)
Record Controller : Type := {
  drones : list FormationDrone;
  formation_active : bool;
  formation_center : Vec3;
  current_formation : string;
  formation_spacing : R
}.

Definition center_x (self : Controller) : R := fst (fst (formation_center self)).
Definition center_y (self : Controller) : R := snd (fst (formation_center self)).
Definition center_z (self : Controller) : R := snd (formation_center self).

Section Formations.
Local Open Scope R_scope.
Local Open Scope py_scope.

Definition line_formation (self : Controller) : result (list Vec3) :=
  let spacing := formation_spacing self in
  for_each (enumerate (drones self))
    (fun '(i, _) positions =>
       half <- truediv (IZR (len (drones self))) 2 ;;
       let x := center_x self + (IZR i - half) * spacing in
       let y := center_y self in
       let z := center_z self in
       Ok (positions ++ [(x, y, z)]))
    [].

Definition triangle_formation (self : Controller) : result (list Vec3) :=
  let positions := @nil Vec3 in
  let spacing := formation_spacing self in
  let positions :=
    if (1 <=? len (drones self))%Z
    then positions ++ [(center_x self, center_y self, center_z self)]
    else positions in
  let positions :=
    if (2 <=? len (drones self))%Z
    then positions ++ [(center_x self - spacing, center_y self - spacing, center_z self)]
    else positions in
  let positions :=
    if (3 <=? len (drones self))%Z
    then positions ++ [(center_x self - spacing, center_y self + spacing, center_z self)]
    else positions in
  for_each (range 3 (len (drones self)))
    (fun i positions =>
       let x := center_x self - 2 * spacing in
       half <- truediv (IZR (len (drones self) - 4)) 2 ;;
       y_off <- truediv ((IZR (i - 3) - half) * spacing) 2 ;;
       let y := center_y self + y_off in
       let z := center_z self in
       Ok (positions ++ [(x, y, z)]))
    positions.

Definition square_formation (self : Controller) : result (list Vec3) :=
  let spacing := formation_spacing self in
  hs <- truediv spacing 2 ;;
  nhs <- truediv (- spacing) 2 ;;
  let square_positions : list Vec3 :=
    [ (hs, hs, 0); (nhs, hs, 0); (nhs, nhs, 0); (hs, nhs, 0) ] in
  for_each (enumerate (drones self))
    (fun '(i, _) positions =>
       if (i <? 4)%Z then
         pos <- getitem square_positions i ;;
         let x := center_x self + fst (fst pos) in
         let y := center_y self + snd (fst pos) in
         let z := center_z self in
         Ok (positions ++ [(x, y, z)])
       else
         let x := center_x self in
         let y := center_y self in
         let z := center_z self + IZR ((i - 3) * 2) in
         Ok (positions ++ [(x, y, z)]))
    [].

Definition circle_formation (self : Controller) : result (list Vec3) :=
  let radius := formation_spacing self in
  for_each (enumerate (drones self))
    (fun '(i, _) positions =>
       angle <- truediv (2 * PI * IZR i) (IZR (len (drones self))) ;;
       let x := center_x self + radius * cos angle in
       let y := center_y self + radius * sin angle in
       let z := center_z self in
       Ok (positions ++ [(x, y, z)]))
    [].

Definition diamond_formation (self : Controller) : result (list Vec3) :=
  let positions := @nil Vec3 in
  let spacing := formation_spacing self in
  let positions :=
    if (1 <=? len (drones self))%Z
    then positions ++ [(center_x self + spacing, center_y self, center_z self)]
    else positions in
  let positions :=
    if (2 <=? len (drones self))%Z
    then positions ++ [(center_x self, center_y self - spacing, center_z self)]
    else positions in
  let positions :=
    if (3 <=? len (drones self))%Z
    then positions ++ [(center_x self, center_y self + spacing, center_z self)]
    else positions in
  let positions :=
    if (4 <=? len (drones self))%Z
    then positions ++ [(center_x self - spacing, center_y self, center_z self)]
    else positions in
  for_each (range 4 (len (drones self)))
    (fun i positions =>
       let x := center_x self in
       let y := center_y self in
       let z := center_z self + IZR ((i - 3) * 2) in
       Ok (positions ++ [(x, y, z)]))
    positions.

(** [self.formations]: the name-to-method dictionary built in [__init__]. *)
Definition formations : gmap string (Controller -> result (list Vec3)) :=
  <["line" := line_formation]>
  (<["triangle" := triangle_formation]>
  (<["square" := square_formation]>
  (<["circle" := circle_formation]>
  (<["diamond" := diamond_formation]> ∅)))).

End Formations.

(** *** The ROS side: service calls, publications, sleeps *)

(** [geometry_msgs/Twist], the fields [send_velocity] sets. *)
Record Twist : Type := {
  linear_x : R;
  linear_y : R;
  linear_z : R;
  angular_z : R
}.

(** What a drone session or the controller does to the outside, in order.
    The string is the [drone_id] of the session whose publisher or service
    client is used. *)
Inductive event : Type :=
| Publish (id : string) (twist : Twist)
| CallSetMode (id : string) (custom_mode : string)
| CallArming (id : string) (value : bool)
| CallTakeoff (id : string) (altitude : R)
| Sleep (secs : R).

(** [replies]: what [future.result()] holds after each successive
    [spin_until_future_complete]: [None] when the service did not answer in
    time, otherwise the boolean field of the response ([mode_sent] or
    [success]).  [trace]: the events so far, oldest first. *)
Record World : Type := {
  replies : list (option bool);
  trace : list event
}.

Definition M (A : Type) : Type := World -> A * World.

Definition ret {A} (a : A) : M A := fun w => (a, w).

Definition seq_bind {A B} (m : M A) (k : A -> M B) : M B :=
  fun w => let (a, w') := m w in k a w'.

Definition emit (e : event) : M unit :=
  fun w => (tt, {| replies := replies w; trace := trace w ++ [e] |}).

(** [spin_until_future_complete(...)] followed by [future.result()]. *)
Definition await_result : M (option bool) :=
  fun w =>
    match replies w with
    | [] => (None, w)
    | r :: rs => (r, {| replies := rs; trace := trace w |})
    end.

(** Truth value of [future.result() and future.result().field]. *)
Definition result_and_field (r : option bool) : bool :=
  match r with
  | Some field => field
  | None => false
  end.

Declare Scope ros_scope.
Delimit Scope ros_scope with ros.
Notation "x <- e ;; k" := (seq_bind e (fun x => k))
  (at level 100, e at next level, right associativity) : ros_scope.

(** [for x in xs: body] with effects, threading the loop-carried state. *)
Fixpoint for_eachM {A S} (xs : list A) (body : A -> S -> M S) (s : S) : M S :=
  match xs with
  | [] => ret s
  | x :: xs' => seq_bind (body x s) (for_eachM xs' body)
  end.

Section Sessions.
Local Open Scope R_scope.
Local Open Scope ros_scope.

(** *** class FormationDrone *)

(** The state [__init__] leaves; [State()] has every flag cleared. *)
Definition new_drone (id ns : string) : FormationDrone :=
  {| drone_id := id; namespace := ns;
     current_state := {| state_connected := false; state_armed := false;
                         state_mode := EmptyString |};
     connected := false;
     position := (0.0, 0.0, 0.0); target_position := (0.0, 0.0, 0.0) |}.

Definition state_callback (msg : State) (self : FormationDrone) : FormationDrone :=
  let connected' :=
    if negb (connected self) && state_connected msg then true
    else if connected self && negb (state_connected msg) then false
    else connected self in
  {| drone_id := drone_id self; namespace := namespace self;
     current_state := msg; connected := connected';
     position := position self; target_position := target_position self |}.

Definition set_mode (self : FormationDrone) (mode : string) : M bool :=
  if negb (connected self) then ret false
  else
    _ <- emit (CallSetMode (drone_id self) mode) ;;
    r <- await_result ;;
    ret (result_and_field r).

Definition arm (self : FormationDrone) : M bool :=
  if negb (connected self) then ret false
  else
    _ <- emit (CallArming (drone_id self) true) ;;
    r <- await_result ;;
    ret (result_and_field r).

Definition takeoff (self : FormationDrone) (altitude : R) : M bool :=
  mode_ok <- set_mode self "GUIDED" ;;
  if negb mode_ok then ret false
  else
    _ <- emit (Sleep 0.5) ;;
    armed <- arm self ;;
    if negb armed then ret false
    else
      _ <- emit (Sleep 0.5) ;;
      _ <- emit (CallTakeoff (drone_id self) altitude) ;;
      r <- await_result ;;
      ret (result_and_field r).

Definition send_velocity (self : FormationDrone) (vx vy vz yaw_rate : R) : M unit :=
  emit (Publish (drone_id self)
          {| linear_x := vx; linear_y := vy; linear_z := vz; angular_z := yaw_rate |}).

(** Returns the session with [target_position] updated. *)
Definition move_to_target (self : FormationDrone) (target : Vec3) (speed : R)
  : M FormationDrone :=
  let self' :=
    {| drone_id := drone_id self; namespace := namespace self;
       current_state := current_state self; connected := connected self;
       position := position self; target_position := target |} in
  let dx := fst (fst target) - fst (fst (position self)) in
  let dy := snd (fst target) - snd (fst (position self)) in
  let dz := snd target - snd (position self) in
  let distance := sqrt (dx * dx + dy * dy + dz * dz) in
  if Py.gt distance 0.1 then
    let vx := (dx / distance) * speed in
    let vy := (dy / distance) * speed in
    let vz := (dz / distance) * speed in
    let max_vel := 3.0 in
    let vx := Py.max (- max_vel) (Py.min max_vel vx) in
    let vy := Py.max (- max_vel) (Py.min max_vel vy) in
    let vz := Py.max (- max_vel) (Py.min max_vel vz) in
    _ <- send_velocity self vx vy vz 0.0 ;;
    ret self'
  else
    _ <- send_velocity self 0 0 0 0.0 ;;
    ret self'.

Definition stop (self : FormationDrone) : M unit :=
  send_velocity self 0 0 0 0.0.

Definition land (self : FormationDrone) : M unit :=
  _ <- set_mode self "LAND" ;;
  ret tt.

End Sessions.

(** *** class ArduPilotFormationController *)

(** One pass of the loop of [wait_for_connections]: the value read from
    [time.time()] in the loop condition, and the state message, if any, that
    [rclpy.spin_once] hands to the [state_callback] of the session at the
    given index. *)
Record Poll : Type := {
  poll_clock : R;
  poll_callback : option (nat * State)
}.

Definition with_drones (self : Controller) (ds : list FormationDrone) : Controller :=
  {| drones := ds; formation_active := formation_active self;
     formation_center := formation_center self;
     current_formation := current_formation self;
     formation_spacing := formation_spacing self |}.

Definition with_active (self : Controller) (b : bool) : Controller :=
  {| drones := drones self; formation_active := b;
     formation_center := formation_center self;
     current_formation := current_formation self;
     formation_spacing := formation_spacing self |}.

(** How a call of [formation_control_loop] ends: it returns, leaving the
    given controller, or the dictionary lookup raises [KeyError], or the
    pattern or an index raises. *)
Inductive ended (A : Type) : Type :=
| Returned (a : A)
| KeyError
| Raised (e : exn).
Arguments Returned {A} a.
Arguments KeyError {A}.
Arguments Raised {A} e.

Section Coordinator.
Local Open Scope R_scope.
Local Open Scope ros_scope.

(** The state [__init__] leaves. *)
Definition init : Controller :=
  {| drones := []; formation_active := false;
     formation_center := (0.0, 0.0, 10.0);
     current_formation := "line"; formation_spacing := 5.0 |}.

Definition add_drone (self : Controller) (id ns : string) : Controller :=
  let drone := new_drone id ns in
  with_drones self (drones self ++ [drone]).

Definition spin_once (self : Controller) (cb : option (nat * State)) : Controller :=
  match cb with
  | Some (k, msg) => with_drones self (alter (state_callback msg) k (drones self))
  | None => self
  end.

(** The loop of [wait_for_connections]; [start_time] is the clock value
    read before the loop. *)
Fixpoint wait_for_connections_loop (self : Controller) (timeout start_time : R)
  (env : list Poll) : option (bool * Controller) :=
  match env with
  | [] => None
  | p :: env' =>
      if Py.lt (poll_clock p - start_time) timeout then
        let connected_count :=
          Py.sum (map (fun _ => 1%Z) (List.filter connected (drones self))) in
        if (connected_count =? len (drones self))%Z then Some (true, self)
        else wait_for_connections_loop (spin_once self (poll_callback p))
               timeout start_time env'
      else Some (false, self)
  end.

Definition wait_for_connections (self : Controller) (timeout : R)
  (start_time : R) (env : list Poll) : option (bool * Controller) :=
  wait_for_connections_loop self timeout start_time env.

(** The body of the [for] loop of [arm_all]. *)
Definition arm_all_body (drone : FormationDrone) (success_count : Z) : M Z :=
  armed <- arm drone ;;
  if armed then ret (success_count + 1)%Z else ret success_count.

Definition arm_all (self : Controller) : M bool :=
  success_count <- for_eachM (drones self) arm_all_body 0%Z ;;
  ret (success_count =? len (drones self))%Z.

(** The [for] loop of [takeoff_formation] with its early [return False];
    the empty list is the code after the loop. *)
Fixpoint takeoff_formation_loop (altitude : R) (items : list (Z * FormationDrone))
  : M bool :=
  match items with
  | [] =>
      _ <- emit (Sleep 10) ;;
      ret true
  | (i, drone) :: items' =>
      _ <- (if (0 <? i)%Z then emit (Sleep 1.0) else ret tt) ;;
      success <- takeoff drone altitude ;;
      if negb success then ret false
      else takeoff_formation_loop altitude items'
  end.

Definition takeoff_formation (self : Controller) (altitude : R) : M bool :=
  takeoff_formation_loop altitude (enumerate (drones self)).

Definition land_formation (self : Controller) : M Controller :=
  _ <- for_eachM (enumerate (drones self))
         (fun '(i, drone) _ =>
            _ <- land drone ;;
            if (i <? len (drones self) - 1)%Z then emit (Sleep 2.0) else ret tt)
         tt ;;
  ret (with_active self false).


Definition stop_formation (self : Controller) : M Controller :=
  let self' := with_active self false in
  _ <- for_eachM (drones self') (fun drone _ => stop drone) tt ;;
  ret self'.

(** The fleet [main] registers from [drone_configs]. *)
Definition main_fleet : Controller :=
  add_drone (add_drone (add_drone init "leader" EmptyString) "drone_1" EmptyString) "drone_2" EmptyString.

Definition with_formation (self : Controller) (name : string) : Controller :=
  {| drones := drones self; formation_active := formation_active self;
     formation_center := formation_center self;
     current_formation := name;
     formation_spacing := formation_spacing self |}.

Definition with_center (self : Controller) (c : Vec3) : Controller :=
  {| drones := drones self; formation_active := formation_active self;
     formation_center := c;
     current_formation := current_formation self;
     formation_spacing := formation_spacing self |}.

(** Returns the result and the controller it leaves. *)
Definition set_formation (self : Controller) (formation_name : string)
  : bool * Controller :=
  match formations !! formation_name with
  | Some _ => (true, with_formation self formation_name)
  | None => (false, self)
  end.

Definition move_formation (self : Controller) (dx dy dz : R) : Controller :=
  with_center self (center_x self + dx, center_y self + dy, center_z self + dz).

(** The body of the [for] loop of [formation_control_loop]; the state is the
    list of the sessions handled so far, or the exception that ended the
    loop. *)
Definition formation_control_body (target_positions : list Vec3)
  (item : Z * FormationDrone) (acc : result (list FormationDrone))
  : M (result (list FormationDrone)) :=
  let '(i, drone) := item in
  match acc with
  | Raise e => ret (Raise e)
  | Ok moved =>
      if (i <? len target_positions)%Z then
        match getitem target_positions i with
        | Raise e => ret (Raise e)
        | Ok target =>
            drone' <- move_to_target drone target 1.0 ;;
            ret (Ok (moved ++ [drone']))
        end
      else ret (Ok (moved ++ [drone]))
  end.

Definition formation_control_loop (self : Controller) : M (ended Controller) :=
  if negb (formation_active self) || (len (drones self) =? 0)%Z
  then ret (Returned self)
  else
    match formations !! current_formation self with
    | None => ret KeyError
    | Some pattern =>
        match pattern self with
        | Raise e => ret (Raised e)
        | Ok target_positions =>
            moved <- for_eachM (enumerate (drones self))
                       (formation_control_body target_positions) (Ok []) ;;
            match moved with
            | Raise e => ret (Raised e)
            | Ok ds => ret (Returned (with_drones self ds))
            end
        end
    end.

End Coordinator.

End Drone.

(** ** flight_controller.py *)

Module FlightController.

(** Constants of [mavutil.mavlink], with the values of the MAVLink common
    message set. *)
Definition MAV_MODE_FLAG_CUSTOM_MODE_ENABLED : Z := 1.
Definition MAV_MODE_FLAG_SAFETY_ARMED : Z := 128.
Definition MAV_CMD_NAV_TAKEOFF : Z := 22.

(** [self.master]: the fields of the connection the methods read. *)
Record Master : Type := {
  target_system : Z;
  target_component : Z
}.

(** Received messages, with the fields the program reads. *)
Record Heartbeat : Type := { base_mode : Z }.
Record GlobalPositionInt : Type := { relative_alt : Z }.

(** What a method does to the outside, in order. *)
Inductive event : Type :=
| SetModeSend (system base custom_mode : Z)
| CommandLongSend (system component command confirmation : Z) (params : list R)
| Sleep (secs : R).

(** One pass of the loop of [takeoff]: the value read from [time.time()] in
    the loop condition, and what [recv_match] returns if the body runs. *)
Record Tick : Type := {
  tick_clock : R;
  tick_msg : option GlobalPositionInt
}.

(** What [takeoff] does to the outside: its [COMMAND_LONG], whose seven
    parameters are binary64 numbers (the last one is the target altitude),
    and the sleeps of its loop, in seconds. *)
Inductive takeoff_event : Type :=
| TakeoffCommandLongSend (system component command confirmation : Z)
    (params : list float)
| TakeoffSleep (secs : Z).

Section Methods.
Local Open Scope R_scope.

Definition mode_mapping : gmap string Z :=
  <["STABILIZE" := 0%Z]>
  (<["GUIDED" := 4%Z]>
  (<["LAND" := 9%Z]>
  (<["RTL" := 6%Z]>
  (<["LOITER" := 5%Z]> ∅)))).

Definition set_mode (self : Master) (mode : string) : bool * list event :=
  match mode_mapping !! mode with
  | None => (false, [])
  | Some custom_mode =>
      (true,
       [ SetModeSend (target_system self) MAV_MODE_FLAG_CUSTOM_MODE_ENABLED custom_mode;
         Sleep 2 ])
  end.

(** The [while] loop of [takeoff].  [Some true] and [Some false] are the
    two [return]s; every pass that does not return ends in
    [time.sleep(1)].  The altitudes are binary64 numbers: [current_alt] is
    the quotient [msg.relative_alt / 1000.0], and each test compares it with
    the rounded product or difference the code computes. *)
Fixpoint takeoff_loop (altitude : float) (start_time : R) (stable_count : Z)
  (last_alt : float) (env : list Tick) : option bool * list takeoff_event :=
  match env with
  | [] => (None, [])
  | t :: env' =>
      if Py.lt (tick_clock t - start_time) 30 then
        match tick_msg t with
        | Some msg =>
            let current_alt := (Py.float_of_int (relative_alt msg) / 1000.0)%float in
            if Py.fge current_alt (altitude * 0.90)%float then (Some true, [])
            else if Py.flt (PrimFloat.abs (current_alt - last_alt)%float) 0.1%float then
              let stable_count := (stable_count + 1)%Z in
              if (3 <=? stable_count)%Z && Py.fge current_alt (altitude * 0.85)%float
              then (Some true, [])
              else
                let (r, evs) := takeoff_loop altitude start_time stable_count current_alt env' in
                (r, TakeoffSleep 1 :: evs)
            else
              let (r, evs) := takeoff_loop altitude start_time 0 current_alt env' in
              (r, TakeoffSleep 1 :: evs)
        | None =>
            let (r, evs) := takeoff_loop altitude start_time stable_count last_alt env' in
            (r, TakeoffSleep 1 :: evs)
        end
      else (Some false, [])
  end.

Definition takeoff (self : Master) (altitude : float) (start_time : R) (env : list Tick)
  : option bool * list takeoff_event :=
  let (r, evs) := takeoff_loop altitude start_time 0 0%float env in
  (r, TakeoffCommandLongSend (target_system self) (target_component self)
        MAV_CMD_NAV_TAKEOFF 0 [0; 0; 0; 0; 0; 0; altitude]%float :: evs).

(** The [while True] loop of [land]; [inbox] holds what the successive
    calls of [recv_match] return. *)
Fixpoint land_loop (inbox : list (option Heartbeat)) : option bool * list event :=
  match inbox with
  | [] => (None, [])
  | msg :: inbox' =>
      let disarmed :=
        match msg with
        | Some m => (Z.land (base_mode m) MAV_MODE_FLAG_SAFETY_ARMED =? 0)%Z
        | None => false
        end in
      if disarmed then (Some true, [])
      else
        let (r, evs) := land_loop inbox' in
        (r, Sleep 1 :: evs)
  end.

Definition land (self : Master) (inbox : list (option Heartbeat))
  : option bool * list event :=
  let (_, mode_evs) := set_mode self "LAND" in
  let (r, evs) := land_loop inbox in
  (r, mode_evs ++ evs).

(** Further constants of [mavutil.mavlink]. *)
Definition MAV_CMD_COMPONENT_ARM_DISARM : Z := 400.

(** [GPS_RAW_INT], with the fields the program reads. *)
Record GpsRawInt : Type := { fix_type : Z; satellites_visible : Z }.

(** One pass of the loop of [wait_for_gps], and one of the loop of [arm]. *)
Record GpsTick : Type := {
  gps_clock : R;
  gps_msg : option GpsRawInt
}.

Record HeartbeatTick : Type := {
  hb_clock : R;
  hb_msg : option Heartbeat
}.

Fixpoint wait_for_gps_loop (timeout start_time : R) (env : list GpsTick)
  : option bool :=
  match env with
  | [] => None
  | t :: env' =>
      if Py.lt (gps_clock t - start_time) timeout then
        match gps_msg t with
        | Some msg =>
            if (3 <=? fix_type msg)%Z && (6 <=? satellites_visible msg)%Z
            then Some true
            else wait_for_gps_loop timeout start_time env'
        | None => wait_for_gps_loop timeout start_time env'
        end
      else Some false
  end.

Definition wait_for_gps (timeout : R) (start_time : R) (env : list GpsTick)
  : option bool :=
  wait_for_gps_loop timeout start_time env.

Fixpoint arm_loop (start_time : R) (env : list HeartbeatTick) : option bool :=
  match env with
  | [] => None
  | t :: env' =>
      if Py.lt (hb_clock t - start_time) 10 then
        match hb_msg t with
        | Some msg =>
            if negb (Z.land (base_mode msg) MAV_MODE_FLAG_SAFETY_ARMED =? 0)%Z
            then Some true
            else arm_loop start_time env'
        | None => arm_loop start_time env'
        end
      else Some false
  end.

Definition arm (self : Master) (start_time : R) (env : list HeartbeatTick)
  : option bool * list event :=
  (arm_loop start_time env,
   [ CommandLongSend (target_system self) (target_component self)
       MAV_CMD_COMPONENT_ARM_DISARM 0 [1; 0; 0; 0; 0; 0; 0] ]).






End Methods.

End FlightController.

(** * Vocabulary of the specification *)

Section TriangleVocabulary.
Import Drone.
Local Open Scope R_scope.

(** The offset rule of the line pattern: slot [index] of [count] slots sits
    at [index - count / 2] steps from the centre. *)
Definition line_rule_offset (index count : Z) : R := IZR index - IZR count / 2.

(** The rear row of the triangle read with the rule of the line pattern
    taken literally: the slots from 3 on are the extra members, numbered from
    0, and their count is the number of drones minus 3. *)
Definition rear_row_by_line_rule (self : Controller) (i : Z) : Vec3 :=
  (center_x self - 2 * formation_spacing self,
   center_y self
   + line_rule_offset (i - 3) (Py.len (drones self) - 3) * (formation_spacing self / 2),
   center_z self).

(** A fleet of four: the three drones of [main] and one more. *)
Definition fleet_of_four : Controller := add_drone main_fleet "drone_3" EmptyString.

End TriangleVocabulary.

Section SessionVocabulary.
Import Drone.
Local Open Scope R_scope.

(** A session whose [state_callback] has seen a connected state message. *)
Definition online (id : string) : FormationDrone :=
  state_callback
    {| state_connected := true; state_armed := false; state_mode := EmptyString |}
    (new_drone id EmptyString).

(** The stop setpoint. *)
Definition zero_velocity : Twist :=
  {| linear_x := 0; linear_y := 0; linear_z := 0; angular_z := 0 |}.

(** Three connected sessions with the names [main] uses. *)
Definition online_fleet : Controller :=
  with_drones init [online "leader"; online "drone_1"; online "drone_2"].

(** The events of one [takeoff] in which every service call succeeds. *)
Definition takeoff_calls (altitude : R) (d : FormationDrone) : list event :=
  [ CallSetMode (drone_id d) "GUIDED"; Sleep 0.5;
    CallArming (drone_id d) true; Sleep 0.5;
    CallTakeoff (drone_id d) altitude ].

(** The delay before the vehicle at index [i]: one second, except before
    vehicle 0. *)
Definition stagger (i : Z) : list event :=
  if (0 <? i)%Z then [Sleep 1.0] else [].

(** The events of successful takeoffs of [ds], the first of which has index
    [i], each after its stagger. *)
Fixpoint staggered_takeoffs (altitude : R) (i : Z) (ds : list FormationDrone)
  : list event :=
  match ds with
  | [] => []
  | d :: ds' =>
      stagger i ++ takeoff_calls altitude d ++ staggered_takeoffs altitude (i + 1) ds'
  end.

(** The mode names [DroneController.set_mode] knows. *)
Definition recognized_modes : list string :=
  ["STABILIZE"; "GUIDED"; "LAND"; "RTL"; "LOITER"].

End SessionVocabulary.

Section FlightVocabulary.
Import FlightController.
Local Open Scope R_scope.

(** A received heartbeat whose safety-armed flag, bit 7 of [base_mode], is
    cleared. *)
Definition disarmed_heartbeat (msg : option Heartbeat) : Prop :=
  exists m, msg = Some m /\ Z.testbit (base_mode m) 7 = false.

(** The first [n] results of [recv_match] on an unbounded stream. *)
Definition first_polls (stream : nat -> option Heartbeat) (n : nat)
  : list (option Heartbeat) :=
  map stream (seq 0 n).

(** The loop condition of [takeoff] fails at this pass: 30 seconds or more
    have elapsed. *)
Definition timed_out (start_time : R) (t : Tick) : Prop :=
  30 <= tick_clock t - start_time.

(** The passes inside the 30-second window: those before the first pass
    whose loop condition fails. *)
Fixpoint in_window (start_time : R) (env : list Tick) : list Tick :=
  match env with
  | [] => []
  | t :: env' =>
      if Rlt_dec (tick_clock t - start_time) 30
      then t :: in_window start_time env'
      else []
  end.

(** The altitude samples, in metres, received during the given passes: the
    binary64 quotients the loop computes from the messages. *)
Fixpoint samples (ticks : list Tick) : list float :=
  match ticks with
  | [] => []
  | t :: ticks' =>
      match tick_msg t with
      | Some msg =>
          (Py.float_of_int (relative_alt msg) / 1000.0)%float :: samples ticks'
      | None => samples ticks'
      end
  end.

(** [a] is at least [fraction] times the target [altitude], the product
    being rounded to binary64 as the loop computes it. *)
Definition reaches (fraction altitude a : float) : Prop :=
  Py.fge a (altitude * fraction)%float = true.

(** Two successive altitudes whose binary64 difference is less than 0.1 m
    in magnitude. *)
Definition steady (a b : float) : Prop :=
  Py.flt (PrimFloat.abs (a - b)%float) 0.1%float = true.

(** The sample [a] and the two samples before it each changed by less than
    0.1 m from the altitude before; [earlier] lists the earlier altitudes,
    most recent first. *)
Definition steady_for_three (a : float) (earlier : list float) : Prop :=
  match earlier with
  | b :: c :: d :: _ => steady a b /\ steady b c /\ steady c d
  | _ => False
  end.

(** The success condition of the takeoff at the sample [a]. *)
Definition takeoff_success_at (altitude a : float) (earlier : list float) : Prop :=
  reaches 0.90%float altitude a \/
  (steady_for_three a earlier /\ reaches 0.85%float altitude a).

(** Some sample of [alts] meets the success condition, the altitudes before
    the first sample being [history] (most recent first). *)
Definition takeoff_success_from (altitude : float) (history alts : list float)
  : Prop :=
  exists before a after,
    alts = before ++ a :: after /\
    takeoff_success_at altitude a (rev before ++ history).

(** The success condition over the samples of a takeoff: before the first
    sample the altitude is taken to be 0, as [last_alt] is. *)
Definition takeoff_success (altitude : float) (alts : list float) : Prop :=
  takeoff_success_from altitude [0%float] alts.

(** How many samples in a row, ending with the most recent one, changed by
    less than 0.1 m. *)
Fixpoint steady_run (history : list float) : nat :=
  match history with
  | a :: (b :: _) as history' =>
      if Py.flt (PrimFloat.abs (a - b)%float) 0.1%float
      then S (steady_run history') else 0%nat
  | _ => 0%nat
  end.

(** The three possible outcomes [r] of the loop of [takeoff] over the passes
    [env], the altitudes so far being [history] (most recent first): success
    on some sample inside the window, window closed without success, or
    still waiting when [env] ends. *)
Definition loop_outcome (altitude : float) (start_time : R) (history : list float)
  (env : list Tick) (r : option bool) : Prop :=
  let ok := takeoff_success_from altitude history (samples (in_window start_time env)) in
  (r = Some true /\ ok) \/
  (r = Some false /\ ~ ok /\ Exists (timed_out start_time) env) \/
  (r = None /\ ~ ok /\ ~ Exists (timed_out start_time) env).

(** A pass at clock value [clock] that receives the altitude [mm], in
    millimetres. *)
Definition pass_at (clock : R) (mm : Z) : Tick :=
  {| tick_clock := clock; tick_msg := Some {| relative_alt := mm |} |}.

(** A climb that reaches 9.1 m three seconds after the start. *)
Definition climb_to_9_1 : list Tick :=
  [pass_at 1 5000; pass_at 3 9100].

(** A vehicle stuck at 5 m, polled every two seconds until the window
    closes. *)
Definition stuck_at_5 : list Tick :=
  map (fun clock => pass_at clock 5000)
    [0; 2; 4; 6; 8; 10; 12; 14; 16; 18; 20; 22; 24; 26; 28; 30].

(** A vehicle that holds 11.7 m, which is 0.9 times 13 m, until the window
    closes. *)
Definition hold_at_11_7 : list Tick :=
  [pass_at 1 11700; pass_at 31 11700].

End FlightVocabulary.

Section FurtherVocabulary.
Import Drone.
Local Open Scope R_scope.

(** A position shifted by [(dx, dy, dz)]. *)
Definition translate (dx dy dz : R) (p : Vec3) : Vec3 :=
  (fst (fst p) + dx, snd (fst p) + dy, snd p + dz).



(** The events of landing [ds], the first of which has index [i] of [n]: a
    LAND mode request for every connected session, and a two-second sleep
    after every session but the last. *)
Fixpoint staggered_landings (n i : Z) (ds : list FormationDrone) : list event :=
  match ds with
  | [] => []
  | d :: ds' =>
      (if connected d then [CallSetMode (drone_id d) "LAND"] else [])
      ++ (if (i <? n - 1)%Z then [Sleep 2.0] else [])
      ++ staggered_landings n (i + 1) ds'
  end.

(** A fleet of five. *)
Definition fleet_of_five : Controller := add_drone fleet_of_four "drone_4" EmptyString.

End FurtherVocabulary.

Section FurtherFlightVocabulary.
Import FlightController.
Local Open Scope R_scope.

(** The passes before the first one at which [limit] seconds or more have
    elapsed since [start_time]. *)
Fixpoint within {A} (clock : A -> R) (start_time limit : R) (env : list A)
  : list A :=
  match env with
  | [] => []
  | t :: env' =>
      if Rlt_dec (clock t - start_time) limit
      then t :: within clock start_time limit env'
      else []
  end.

(** A pass at which [limit] seconds or more have elapsed. *)
Definition late {A} (clock : A -> R) (start_time limit : R) (t : A) : Prop :=
  limit <= clock t - start_time.

(** A received heartbeat whose safety-armed flag is set. *)
Definition armed_heartbeat (msg : option Heartbeat) : Prop :=
  exists m, msg = Some m /\ Z.testbit (base_mode m) 7 = true.

(** A received GPS message with a 3D fix and at least six satellites. *)
Definition gps_lock (msg : option GpsRawInt) : Prop :=
  exists m, msg = Some m /\ (3 <= fix_type m)%Z /\ (6 <= satellites_visible m)%Z.

(** Every pass starts at least one second after the one before (the first
    after [previous]). *)
Fixpoint paced (previous : R) (env : list Tick) : Prop :=
  match env with
  | [] => True
  | t :: env' => previous + 1 <= tick_clock t /\ paced (tick_clock t) env'
  end.

(** A loop that polls until a pass hits, giving up at the first pass at
    which [limit] seconds or more have elapsed. *)
Fixpoint poll_until {A} (clock : A -> R) (hit : A -> bool) (start_time limit : R)
  (env : list A) : option bool :=
  match env with
  | [] => None
  | t :: env' =>
      if Rlt_dec (clock t - start_time) limit
      then if hit t then Some true else poll_until clock hit start_time limit env'
      else Some false
  end.

(** Thirty-one passes one second apart, all receiving 5 m. *)
Definition one_second_passes : list Tick :=
  map (fun k => pass_at (IZR (Z.of_nat k)) 5000) (seq 0 31).

End FurtherFlightVocabulary.

(** * Properties *)

(** ** Python primitives *)

Section PyFacts.
Import Py.
Local Open Scope R_scope.

Lemma truediv_ok (a b : R) : b <> 0 -> truediv a b = Ok (a / b).
Proof.
  intros Hb. unfold truediv. destruct (Req_dec_T b 0); [contradiction | reflexivity].
Qed.

Lemma truediv_two (a : R) : truediv a 2 = Ok (a / 2).
Proof. apply truediv_ok. lra. Qed.

Lemma lt_true (a b : R) : lt a b = true <-> a < b.
Proof. unfold lt. destruct (Rlt_dec a b); split; intros; try discriminate; auto; lra. Qed.

Lemma lt_false (a b : R) : lt a b = false <-> b <= a.
Proof. unfold lt. destruct (Rlt_dec a b); split; intros; try discriminate; auto; lra. Qed.



Lemma ge_true (a b : R) : ge a b = true <-> b <= a.
Proof. unfold ge. destruct (Rge_dec a b); split; intros; try discriminate; auto; lra. Qed.

Lemma ge_false (a b : R) : ge a b = false <-> a < b.
Proof. unfold ge. destruct (Rge_dec a b); split; intros; try discriminate; auto; lra. Qed.

Lemma length_enumerate_from {A} (l : list A) (i : Z) :
  length (enumerate_from i l) = length l.
Proof. revert i. induction l as [|x l IH]; intros i; simpl; [reflexivity | now rewrite IH]. Qed.

Lemma length_enumerate {A} (l : list A) : length (enumerate l) = length l.
Proof. apply length_enumerate_from. Qed.

Lemma length_range (a b : Z) : length (range a b) = Z.to_nat (b - a).
Proof. unfold range. now rewrite length_map, length_seq. Qed.

Lemma enumerate_from_bounds {A} (l : list A) (i k : Z) (x : A) :
  In (k, x) (enumerate_from i l) -> (i <= k < i + len l)%Z.
Proof.
  revert i. unfold len. induction l as [|y l IH]; intros i; simpl.
  - intros [].
  - intros [Heq | Hin].
    + inversion Heq; subst. lia.
    + apply IH in Hin. lia.
Qed.

(** A loop whose body appends exactly one element on every pass of [xs]
    ends normally with [length xs] more elements. *)
Lemma for_each_appends {A B} (xs : list A) (body : A -> list B -> result (list B)) :
  (forall x s, In x xs -> exists p, body x s = Ok (s ++ [p])) ->
  forall s, exists s', for_each xs body s = Ok s' /\
                       length s' = (length s + length xs)%nat.
Proof.
  induction xs as [|x xs IH]; intros Hbody s; simpl.
  - exists s. split; [reflexivity | lia].
  - destruct (Hbody x s (or_introl eq_refl)) as [p Hp]. rewrite Hp. simpl.
    destruct (IH (fun y t Hy => Hbody y t (or_intror Hy)) (s ++ [p])) as [s' [Hs' Hlen]].
    exists s'. split; [exact Hs' |]. rewrite Hlen, length_app. simpl. lia.
Qed.

End PyFacts.

(** ** Formation patterns *)

Section FormationLength.
Import Py Drone.
Local Open Scope R_scope.

Variable self : Controller.

(** Reduces a goal about a position-building loop to its body. *)
Ltac loop_appends ps Hps Hlen :=
  match goal with
  | |- context [for_each ?xs ?body ?s0] =>
      let H := fresh "Hbody" in
      assert (H : forall x s, In x xs -> exists p, body x s = Ok (s ++ [p]));
      [ | destruct (for_each_appends xs body H s0) as [ps [Hps Hlen]] ]
  end.

Ltac leb_props :=
  repeat match goal with
    | H : (_ <=? _)%Z = true |- _ => apply Z.leb_le in H
    | H : (_ <=? _)%Z = false |- _ => apply Z.leb_gt in H
    end.

Lemma line_formation_length :
  exists positions, line_formation self = Ok positions /\
                    length positions = length (drones self).
Proof.
  unfold line_formation. loop_appends ps Hps Hlen.
  - intros [i d] s _. rewrite truediv_two. simpl. eauto.
  - exists ps. split; [exact Hps |]. rewrite length_enumerate in Hlen. exact Hlen.
Qed.

Lemma circle_formation_length :
  exists positions, circle_formation self = Ok positions /\
                    length positions = length (drones self).
Proof.
  unfold circle_formation. loop_appends ps Hps Hlen.
  - intros [i d] s Hin. apply enumerate_from_bounds in Hin.
    rewrite truediv_ok; [simpl; eauto |].
    apply not_0_IZR. lia.
  - exists ps. split; [exact Hps |]. rewrite length_enumerate in Hlen. exact Hlen.
Qed.

Lemma square_formation_length :
  exists positions, square_formation self = Ok positions /\
                    length positions = length (drones self).
Proof.
  unfold square_formation. rewrite !truediv_two. cbn [bind].
  loop_appends ps Hps Hlen.
  - intros [i d] s Hin. apply enumerate_from_bounds in Hin.
    destruct (i <? 4)%Z eqn:Hi4; [| eauto].
    apply Z.ltb_lt in Hi4.
    assert (Hcases : i = 0%Z \/ i = 1%Z \/ i = 2%Z \/ i = 3%Z) by lia.
    destruct Hcases as [-> | [-> | [-> | ->]]]; cbn; eauto.
  - exists ps. split; [exact Hps |]. rewrite length_enumerate in Hlen. exact Hlen.
Qed.

Lemma triangle_formation_length :
  exists positions, triangle_formation self = Ok positions /\
                    length positions = length (drones self).
Proof.
  unfold triangle_formation.
  destruct (1 <=? len (drones self))%Z eqn:H1;
    destruct (2 <=? len (drones self))%Z eqn:H2;
    destruct (3 <=? len (drones self))%Z eqn:H3;
    (loop_appends ps Hps Hlen;
     [ intros i s _; repeat (rewrite truediv_two; cbn [bind]); eauto
     | exists ps; split; [exact Hps |];
       rewrite length_range in Hlen; simpl in Hlen; leb_props; unfold len in *;
       etrans; [exact Hlen | lia] ]).
Qed.

Lemma diamond_formation_length :
  exists positions, diamond_formation self = Ok positions /\
                    length positions = length (drones self).
Proof.
  unfold diamond_formation.
  destruct (1 <=? len (drones self))%Z eqn:H1;
    destruct (2 <=? len (drones self))%Z eqn:H2;
    destruct (3 <=? len (drones self))%Z eqn:H3;
    destruct (4 <=? len (drones self))%Z eqn:H4;
    (loop_appends ps Hps Hlen;
     [ intros i s _; eauto
     | exists ps; split; [exact Hps |];
       rewrite length_range in Hlen; simpl in Hlen; leb_props; unfold len in *;
       etrans; [exact Hlen | lia] ]).
Qed.

End FormationLength.

(** The dictionary holds the five patterns and nothing else. *)
Lemma formations_names (name : string) :
  is_Some (Drone.formations !! name) <->
  In name ["line"; "triangle"; "square"; "circle"; "diamond"].
Proof.
  unfold Drone.formations. split.
  - intros [f Hf].
    repeat (rewrite lookup_insert in Hf; case_decide;
            [subst name; simpl; tauto |]).
    rewrite lookup_empty in Hf. discriminate.
  - simpl. intros [<- | [<- | [<- | [<- | [<- | []]]]]]; eexists; reflexivity.
Qed.

(** C1.  For every controller, whatever the number of registered drones, each
    of the five entries of [formations] (line, triangle, square, circle,
    diamond) evaluates without raising and returns exactly one position per
    registered drone; with no drone registered, circle returns the empty list
    instead of dividing by zero. *)
Theorem formation_length_invariant (self : Drone.Controller) (name : string) :
  In name ["line"; "triangle"; "square"; "circle"; "diamond"] ->
  exists pattern positions,
    Drone.formations !! name = Some pattern /\
    pattern self = Py.Ok positions /\
    length positions = length (Drone.drones self).
Proof.
  intros Hname. simpl in Hname.
  destruct Hname as [<- | [<- | [<- | [<- | [<- | []]]]]].
  - destruct (line_formation_length self) as [ps H].
    exists Drone.line_formation, ps. split; [reflexivity | exact H].
  - destruct (triangle_formation_length self) as [ps H].
    exists Drone.triangle_formation, ps. split; [reflexivity | exact H].
  - destruct (square_formation_length self) as [ps H].
    exists Drone.square_formation, ps. split; [reflexivity | exact H].
  - destruct (circle_formation_length self) as [ps H].
    exists Drone.circle_formation, ps. split; [reflexivity | exact H].
  - destruct (diamond_formation_length self) as [ps H].
    exists Drone.diamond_formation, ps. split; [reflexivity | exact H].
Qed.

Lemma formation_length_invariant_witness :
  exists pattern positions,
    Drone.formations !! "circle" = Some pattern /\
    pattern Drone.init = Py.Ok positions /\
    length positions = 0%nat.
Proof.
  apply (formation_length_invariant Drone.init "circle").
  simpl. tauto.
Defined.

(** ** Moving a session towards its target *)

Section MoveToTarget.
Import Drone.
Local Open Scope R_scope.






End MoveToTarget.

(** ** The rear row of the triangle *)

Section TriangleRearRow.
Import Py Drone.
Local Open Scope R_scope.

(** A loop whose body appends [f x] on the pass for [x] appends [map f xs]. *)
Lemma for_each_map {A B} (xs : list A) (body : A -> list B -> result (list B))
  (f : A -> B) :
  (forall x s, In x xs -> body x s = Ok (s ++ [f x])) ->
  forall s, for_each xs body s = Ok (s ++ map f xs).
Proof.
  induction xs as [|x xs IH]; intros Hbody s; simpl.
  - now rewrite app_nil_r.
  - rewrite (Hbody x s (or_introl eq_refl)). simpl.
    rewrite IH by (intros y t Hy; apply Hbody; now right).
    now rewrite <- app_assoc.
Qed.

Lemma nth_error_range (a b k : Z) :
  (a <= k < b)%Z -> nth_error (range a b) (Z.to_nat (k - a)) = Some k.
Proof.
  intros Hk. unfold range.
  rewrite nth_error_map, nth_error_seq.
  destruct (Nat.ltb_spec (Z.to_nat (k - a)) (Z.to_nat (b - a))) as [_ | Hge]; [| lia].
  simpl. f_equal. lia.
Qed.

(** What the loop of [triangle_formation] appends for slot [i]. *)
Lemma triangle_formation_rear (self : Controller) :
  (3 <= len (drones self))%Z ->
  triangle_formation self =
    Ok ([ (center_x self, center_y self, center_z self);
          (center_x self - formation_spacing self,
           center_y self - formation_spacing self, center_z self);
          (center_x self - formation_spacing self,
           center_y self + formation_spacing self, center_z self) ]
        ++ map (fun i =>
                  (center_x self - 2 * formation_spacing self,
                   center_y self
                   + (IZR (i - 3) - IZR (len (drones self) - 4) / 2)
                     * formation_spacing self / 2,
                   center_z self))
             (range 3 (len (drones self)))).
Proof.
  intros Hn. unfold triangle_formation.
  destruct (1 <=? len (drones self))%Z eqn:H1; [| apply Z.leb_gt in H1; lia].
  destruct (2 <=? len (drones self))%Z eqn:H2; [| apply Z.leb_gt in H2; lia].
  destruct (3 <=? len (drones self))%Z eqn:H3; [| apply Z.leb_gt in H3; lia].
  apply for_each_map.
  intros i s _. rewrite truediv_two. cbn [bind]. rewrite truediv_two. reflexivity.
Qed.

(** The line pattern follows [line_rule_offset] with the number of drones. *)
Lemma line_formation_offsets (self : Controller) :
  line_formation self =
    Ok (map (fun '(i, _) =>
               (center_x self
                + line_rule_offset i (len (drones self)) * formation_spacing self,
                center_y self, center_z self))
          (enumerate (drones self))).
Proof.
  unfold line_formation, line_rule_offset.
  apply (for_each_map (enumerate (drones self)) _
           (fun '(i, _) =>
              (center_x self
               + (IZR i - IZR (len (drones self)) / 2) * formation_spacing self,
               center_y self, center_z self)) ).
  intros [i d] s _. now rewrite truediv_two.
Qed.

Lemma triangle_rear_lookup (self : Controller) (i : Z) :
  (3 <= i < len (drones self))%Z ->
  exists positions,
    triangle_formation self = Ok positions /\
    nth_error positions (Z.to_nat i) =
      Some (center_x self - 2 * formation_spacing self,
            center_y self
            + (IZR (i - 3) - IZR (len (drones self) - 4) / 2)
              * formation_spacing self / 2,
            center_z self).
Proof.
  intros Hi. eexists. split; [apply triangle_formation_rear; lia |].
  replace (Z.to_nat i) with (3 + Z.to_nat (i - 3))%nat by lia.
  cbn [app nth_error Nat.add].
  rewrite nth_error_map, nth_error_range by lia.
  reflexivity.
Qed.

(** C6, as the code has it.  With more than three drones, every slot [i >= 3]
    of the triangle lies at [x = center.x - 2 * spacing], and its y-offset from
    [center.y] is [(i - 3) - (n - 4) / 2] steps of [spacing / 2]: the rule of
    the line pattern applied to the index among the extra members and to the
    number of extra members minus one (real-valued division).  With that
    count the row is centred on [center.y]: slot [i] and slot [n + 2 - i]
    mirror each other. *)
Theorem triangle_rear_row_centered (self : Controller) :
  (3 < len (drones self))%Z ->
  exists positions,
    triangle_formation self = Ok positions /\
    forall i, (3 <= i < len (drones self))%Z ->
      let off := line_rule_offset (i - 3) (len (drones self) - 4)
                 * (formation_spacing self / 2) in
      nth_error positions (Z.to_nat i) =
        Some (center_x self - 2 * formation_spacing self,
              center_y self + off, center_z self) /\
      nth_error positions (Z.to_nat (len (drones self) + 2 - i)) =
        Some (center_x self - 2 * formation_spacing self,
              center_y self - off, center_z self).
Proof.
  intros Hn.
  destruct (triangle_rear_lookup self 3) as [positions [Hps _]]; [lia |].
  exists positions. split; [exact Hps |].
  intros i Hi off. subst off. unfold line_rule_offset.
  split.
  - destruct (triangle_rear_lookup self i Hi) as [ps' [Hps' Hnth]].
    rewrite Hps in Hps'. injection Hps' as <-.
    rewrite Hnth. do 2 f_equal. f_equal. lra.
  - destruct (triangle_rear_lookup self (len (drones self) + 2 - i)) as [ps' [Hps' Hnth]];
      [lia |].
    rewrite Hps in Hps'. injection Hps' as <-.
    rewrite Hnth. do 2 f_equal. f_equal.
    replace (len (drones self) + 2 - i - 3)%Z
      with ((len (drones self) - 4) - (i - 3))%Z by lia.
    rewrite minus_IZR. lra.
Qed.

Lemma triangle_rear_row_centered_witness :
  exists positions,
    triangle_formation fleet_of_four = Ok positions /\
    nth_error positions 3 = Some (- 10, 0, 10).
Proof.
  destruct (triangle_rear_row_centered fleet_of_four) as [positions [Hps Hrow]].
  - change (len (drones fleet_of_four)) with 4%Z. lia.
  - exists positions. split; [exact Hps |].
    destruct (Hrow 3%Z) as [Hnth _]; [change (len (drones fleet_of_four)) with 4%Z; lia |].
    change (Z.to_nat 3) with 3%nat in Hnth. rewrite Hnth.
    unfold line_rule_offset, center_x, center_y, center_z.
    cbn [fleet_of_four main_fleet add_drone with_drones init formation_center
         formation_spacing drones fst snd].
    change (len _) with 4%Z.
    do 2 f_equal; [f_equal |]; rewrite ?minus_IZR; lra.
Defined.

(** C6, as stated, fails: with four drones the single extra member sits on
    [center.y], where the rule of the line pattern with the number of extra
    members would put it a quarter of the spacing to the side. *)
Lemma triangle_rear_row_not_line_rule :
  exists positions,
    triangle_formation fleet_of_four = Ok positions /\
    nth_error positions 3 = Some (- 10, 0, 10) /\
    rear_row_by_line_rule fleet_of_four 3 = (- 10, - 1.25, 10) /\
    nth_error positions 3 <> Some (rear_row_by_line_rule fleet_of_four 3).
Proof.
  destruct (triangle_rear_lookup fleet_of_four 3) as [positions [Hps Hnth]];
    [change (len (drones fleet_of_four)) with 4%Z; lia |].
  change (Z.to_nat 3) with 3%nat in Hnth.
  assert (Hrule : rear_row_by_line_rule fleet_of_four 3 = (- 10, - 1.25, 10)).
  { unfold rear_row_by_line_rule, line_rule_offset, center_x, center_y, center_z.
    cbn [fleet_of_four main_fleet add_drone with_drones init formation_center
         formation_spacing drones fst snd].
    change (len _) with 4%Z.
    do 2 f_equal; rewrite ?minus_IZR; lra. }
  assert (Hcode : nth_error positions 3 = Some (- 10, 0, 10)).
  { rewrite Hnth.
    unfold center_x, center_y, center_z.
    cbn [fleet_of_four main_fleet add_drone with_drones init formation_center
         formation_spacing drones fst snd].
    change (len _) with 4%Z.
    do 2 f_equal; [f_equal |]; rewrite ?minus_IZR; lra. }
  exists positions. repeat split; try assumption.
  rewrite Hcode, Hrule. intros Heq. injection Heq as Hy. lra.
Qed.

End TriangleRearRow.

(** ** Setting the flight mode *)

Section SetMode.
Local Open Scope R_scope.

Lemma mode_mapping_recognized (mode : string) :
  In mode recognized_modes <-> is_Some (FlightController.mode_mapping !! mode).
Proof.
  unfold FlightController.mode_mapping, recognized_modes. split.
  - simpl. intros [<- | [<- | [<- | [<- | [<- | []]]]]]; eexists; reflexivity.
  - intros [v Hv].
    repeat (rewrite lookup_insert in Hv; case_decide;
            [subst mode; simpl; tauto |]).
    rewrite lookup_empty in Hv. discriminate.
Qed.

Lemma controller_set_mode_unknown (self : FlightController.Master) (mode : string) :
  ~ In mode recognized_modes -> FlightController.set_mode self mode = (false, []).
Proof.
  intros Hmode. unfold FlightController.set_mode.
  destruct (FlightController.mode_mapping !! mode) eqn:Hm; [| reflexivity].
  exfalso. apply Hmode, mode_mapping_recognized. eauto.
Qed.

Lemma controller_set_mode_known (self : FlightController.Master) (mode : string) :
  In mode recognized_modes ->
  exists custom_mode,
    FlightController.mode_mapping !! mode = Some custom_mode /\
    FlightController.set_mode self mode =
      (true,
       [ FlightController.SetModeSend (FlightController.target_system self)
           FlightController.MAV_MODE_FLAG_CUSTOM_MODE_ENABLED custom_mode;
         FlightController.Sleep 2 ]).
Proof.
  intros Hmode. apply mode_mapping_recognized in Hmode as [v Hv].
  exists v. split; [exact Hv |]. unfold FlightController.set_mode. now rewrite Hv.
Qed.

Lemma session_set_mode_offline (self : Drone.FormationDrone) (mode : string)
  (w : Drone.World) :
  Drone.connected self = false -> Drone.set_mode self mode w = (false, w).
Proof. intros Hc. unfold Drone.set_mode. now rewrite Hc. Qed.

Lemma session_set_mode_online (self : Drone.FormationDrone) (mode : string)
  (w : Drone.World) :
  Drone.connected self = true ->
  Drone.set_mode self mode w =
    (Drone.result_and_field (hd None (Drone.replies w)),
     {| Drone.replies := tl (Drone.replies w);
        Drone.trace := Drone.trace w ++ [Drone.CallSetMode (Drone.drone_id self) mode] |}).
Proof.
  intros Hc. unfold Drone.set_mode. rewrite Hc. cbn.
  destruct (Drone.replies w) as [|r rs] eqn:Hr; cbn; rewrite ?Hr; reflexivity.
Qed.

(** C7, as the code has it.  [DroneController.set_mode] fails fast: for a
    name outside its table it returns false and sends nothing, and whenever it
    sends, the name is in the table.  [FormationDrone.set_mode] has no table:
    the only call it refuses without sending is one on a session that is not
    connected; on a connected session it forwards the name, whatever it is,
    in one service call. *)
Theorem set_mode_fail_fast (mode : string) :
  (forall self : FlightController.Master,
      ~ In mode recognized_modes ->
      FlightController.set_mode self mode = (false, [])) /\
  (forall self : FlightController.Master,
      snd (FlightController.set_mode self mode) <> [] ->
      In mode recognized_modes) /\
  (forall (self : Drone.FormationDrone) (w : Drone.World),
      Drone.connected self = false ->
      Drone.set_mode self mode w = (false, w)) /\
  (forall (self : Drone.FormationDrone) (w : Drone.World),
      Drone.connected self = true ->
      Drone.trace (snd (Drone.set_mode self mode w)) =
        Drone.trace w ++ [Drone.CallSetMode (Drone.drone_id self) mode]).
Proof.
  repeat split.
  - intros self Hmode. now apply controller_set_mode_unknown.
  - intros self Hsent.
    destruct (in_dec String.string_dec mode recognized_modes) as [Hin | Hout]; [exact Hin |].
    rewrite (controller_set_mode_unknown self mode Hout) in Hsent.
    now contradiction Hsent.
  - intros self w Hc. now apply session_set_mode_offline.
  - intros self w Hc. now rewrite session_set_mode_online.
Qed.

Lemma set_mode_fail_fast_witness :
  FlightController.set_mode
    {| FlightController.target_system := 1; FlightController.target_component := 1 |}
    "WARP" = (false, []).
Proof.
  apply (proj1 (set_mode_fail_fast "WARP")).
  simpl. intros [H | [H | [H | [H | [H | []]]]]]; discriminate H.
Defined.

(** C7, as stated, fails for [FormationDrone.set_mode]: a connected session
    sends a name no table knows, and reports success when the service
    accepts it. *)
Lemma session_set_mode_forwards_unknown_name :
  ~ In "WARP" recognized_modes /\
  Drone.set_mode (online "leader") "WARP"
    {| Drone.replies := [Some true]; Drone.trace := [] |} =
  (true,
   {| Drone.replies := [];
      Drone.trace := [Drone.CallSetMode "leader" "WARP"] |}).
Proof.
  split.
  - simpl. intros [H | [H | [H | [H | [H | []]]]]]; discriminate H.
  - reflexivity.
Qed.

End SetMode.

(** ** Stopping the formation *)

Section StopFormation.
Import Drone.
Local Open Scope R_scope.

Lemma stop_publishes_zero (self : FormationDrone) (w : World) :
  stop self w =
    (tt, {| replies := replies w;
            trace := trace w ++ [Publish (drone_id self) zero_velocity] |}).
Proof.
  unfold stop, send_velocity, emit, zero_velocity.
  replace 0.0 with 0 by lra. reflexivity.
Qed.

Lemma stop_each (ds : list FormationDrone) (w : World) :
  for_eachM ds (fun drone _ => stop drone) tt w =
    (tt, {| replies := replies w;
            trace := trace w ++ map (fun d => Publish (drone_id d) zero_velocity) ds |}).
Proof.
  revert w. induction ds as [|d ds IH]; intros w; simpl.
  - rewrite app_nil_r. now destruct w.
  - unfold seq_bind. rewrite stop_publishes_zero, IH. simpl.
    now rewrite <- app_assoc.
Qed.

Lemma stop_formation_run (self : Controller) (w : World) :
  stop_formation self w =
    (with_active self false,
     {| replies := replies w;
        trace := trace w
                 ++ map (fun d => Publish (drone_id d) zero_velocity) (drones self) |}).
Proof.
  unfold stop_formation, seq_bind. cbn [with_active drones].
  now rewrite stop_each.
Qed.

(** C8.  [stop_formation] clears [formation_active] and publishes the zero
    setpoint to every registered session, in order, within the call itself.
    A second call straight after does the same again: the flag stays
    cleared, every session receives the zero setpoint once more, and the
    controller state does not change any further.  No step of it can
    raise. *)
Theorem stop_formation_idempotent (self : Controller) (w : World) :
  let halts := map (fun d => Publish (drone_id d) zero_velocity) (drones self) in
  let first := stop_formation self w in
  let second := stop_formation (fst first) (snd first) in
  formation_active (fst first) = false /\
  drones (fst first) = drones self /\
  trace (snd first) = trace w ++ halts /\
  fst second = fst first /\
  formation_active (fst second) = false /\
  trace (snd second) = trace (snd first) ++ halts /\
  replies (snd second) = replies w.
Proof.
  intros halts first second. subst second first halts.
  rewrite !stop_formation_run. cbn.
  repeat split; reflexivity.
Qed.

End StopFormation.

(** ** Waiting for connections *)

Section WaitForConnections.
Import Drone.
Local Open Scope R_scope.

Lemma wait_first_poll_in_time (self : Controller) (timeout start_time : R)
  (p : Poll) (env : list Poll) :
  drones self = [] ->
  poll_clock p - start_time < timeout ->
  wait_for_connections self timeout start_time (p :: env) = Some (true, self).
Proof.
  intros Hnone Hin. unfold wait_for_connections. simpl.
  rewrite (proj2 (lt_true _ _) Hin), Hnone. reflexivity.
Qed.

Lemma wait_first_poll_late (self : Controller) (timeout start_time : R)
  (p : Poll) (env : list Poll) :
  timeout <= poll_clock p - start_time ->
  wait_for_connections self timeout start_time (p :: env) = Some (false, self).
Proof.
  intros Hlate. unfold wait_for_connections. simpl.
  now rewrite (proj2 (lt_false _ _) Hlate).
Qed.

(** C10, as the code has it.  With no drone registered,
    [wait_for_connections] returns true on its first poll provided the first
    evaluation of the loop condition finds the elapsed time below [timeout];
    when it does not (as with every [timeout <= 0] on a clock that does not
    run backwards) the loop body never runs and the call returns false. *)
Theorem wait_for_connections_no_drones (self : Controller) (timeout start_time : R)
  (p : Poll) (env : list Poll) :
  drones self = [] ->
  (poll_clock p - start_time < timeout ->
   wait_for_connections self timeout start_time (p :: env) = Some (true, self)) /\
  (timeout <= poll_clock p - start_time ->
   wait_for_connections self timeout start_time (p :: env) = Some (false, self)).
Proof.
  intros Hnone. split.
  - now apply wait_first_poll_in_time.
  - now apply wait_first_poll_late.
Qed.

Lemma wait_for_connections_no_drones_witness :
  wait_for_connections init 30.0 100
    [{| poll_clock := 100; poll_callback := None |}] = Some (true, init).
Proof.
  apply (wait_for_connections_no_drones init 30.0 100
           {| poll_clock := 100; poll_callback := None |} []).
  - reflexivity.
  - simpl. lra.
Defined.

(** C10, as stated, fails: with no drone registered and [timeout = 0] the
    call returns false without polling. *)
Lemma wait_for_connections_zero_timeout :
  drones init = [] /\
  wait_for_connections init 0 100
    [{| poll_clock := 100; poll_callback := None |}] = Some (false, init).
Proof.
  split; [reflexivity |].
  apply wait_first_poll_late. simpl. lra.
Qed.

End WaitForConnections.

(** ** Arming every drone *)

Section ArmAll.
Import Drone.
Local Open Scope Z_scope.

Lemma arm_run (self : FormationDrone) (w : World) :
  arm self w =
    if connected self
    then (result_and_field (hd None (replies w)),
          {| replies := tl (replies w);
             trace := trace w ++ [CallArming (drone_id self) true] |})
    else (false, w).
Proof.
  unfold arm. destruct (connected self); [| reflexivity].
  cbn. destruct (replies w) as [|r rs] eqn:Hr; cbn; rewrite ?Hr; reflexivity.
Qed.

Lemma arm_all_body_run (drone : FormationDrone) (c : Z) (w : World) :
  arm_all_body drone c w =
    if connected drone
    then (if result_and_field (hd None (replies w)) then c + 1 else c,
          {| replies := tl (replies w);
             trace := trace w ++ [CallArming (drone_id drone) true] |})
    else (c, w).
Proof.
  unfold arm_all_body, seq_bind. rewrite arm_run.
  destruct (connected drone); [| reflexivity].
  destruct (result_and_field (hd None (replies w))); reflexivity.
Qed.

Lemma arm_all_loop_run (ds : list FormationDrone) :
  forall (c : Z) (w : World),
    let r := for_eachM ds arm_all_body c w in
    trace (snd r) =
      trace w ++ map (fun d => CallArming (drone_id d) true) (List.filter connected ds) /\
    replies (snd r) = skipn (length (List.filter connected ds)) (replies w) /\
    c <= fst r <= c + Z.of_nat (length ds) /\
    (fst r = c + Z.of_nat (length ds) <->
     Forall (fun d => connected d = true) ds /\
     firstn (length ds) (replies w) = repeat (Some true) (length ds)).
Proof.
  induction ds as [|d ds IH]; intros c w; cbn zeta.
  - simpl. rewrite app_nil_r. repeat split; try lia; auto.
  - assert (Hstep : for_eachM (d :: ds) arm_all_body c w =
                    let (c1, w1) := arm_all_body d c w in
                    for_eachM ds arm_all_body c1 w1) by reflexivity.
    rewrite Hstep, arm_all_body_run. clear Hstep.
    destruct (connected d) eqn:Hd; cbv beta iota.
    + set (c1 := if result_and_field (hd None (replies w)) then c + 1 else c).
      set (w1 := {| replies := tl (replies w);
                    trace := trace w ++ [CallArming (drone_id d) true] |}).
      destruct (IH c1 w1) as (Htr & Hrep & Hbound & Hall).
      cbn [List.filter]. rewrite Hd. cbn [map length].
      split; [rewrite Htr; subst w1; cbn [trace]; now rewrite <- app_assoc |].
      split; [rewrite Hrep; subst w1; cbn [replies];
              destruct (replies w); [now rewrite skipn_nil | reflexivity] |].
      split; [subst c1; destruct (result_and_field _); lia |].
      subst c1 w1. cbn [replies] in Hall.
      destruct (replies w) as [|[[|]|] rs]; cbn [hd tl result_and_field firstn repeat] in *.
      * split; [lia | intros [_ Habs]; discriminate Habs].
      * rewrite Nat2Z.inj_succ.
        replace (c + Z.succ (Z.of_nat (length ds))) with (c + 1 + Z.of_nat (length ds)) by lia.
        rewrite Hall. split.
        -- intros [HF Hfirst]. split; [now constructor | now f_equal].
        -- intros [HF Hfirst]. inversion HF; subst. injection Hfirst as Hfirst. auto.
      * split; [lia | intros [_ Habs]; discriminate Habs].
      * split; [lia | intros [_ Habs]; discriminate Habs].
    + destruct (IH c w) as (Htr & Hrep & Hbound & Hall).
      cbn [List.filter]. rewrite Hd.
      split; [exact Htr |]. split; [exact Hrep |].
      cbn [length]. split; [lia |].
      split; [lia |].
      intros [HF _]. inversion HF; subst. congruence.
Qed.

(** C5.  [arm_all] calls [arm] on every registered drone in registration
    order, whatever the earlier outcomes: each connected drone gets exactly one
    arming request, in order, and consumes one reply (a drone that is not
    connected fails its attempt without a request).  The result is true
    exactly when every attempt succeeded, that is, every drone is connected
    and every one of the requests was answered with success.  With three
    connected sessions of which the second gets no acknowledgement, the first
    and the third are armed all the same and the result is false. *)
Theorem arm_all_attempts_every_drone (self : Controller) (w : World) :
  let attempted := List.filter connected (drones self) in
  let n := length (drones self) in
  trace (snd (arm_all self w)) =
    trace w ++ map (fun d => CallArming (drone_id d) true) attempted /\
  replies (snd (arm_all self w)) = skipn (length attempted) (replies w) /\
  (fst (arm_all self w) = true <->
   Forall (fun d => connected d = true) (drones self) /\
   firstn n (replies w) = repeat (Some true) n) /\
  arm_all online_fleet {| replies := [Some true; None; Some true]; trace := [] |} =
    (false,
     {| replies := [];
        trace := [ CallArming "leader" true; CallArming "drone_1" true;
                   CallArming "drone_2" true ] |}).
Proof.
  intros attempted n. subst attempted n.
  destruct (arm_all_loop_run (drones self) 0 w) as (Htr & Hrep & Hbound & Hall).
  unfold arm_all, seq_bind.
  destruct (for_eachM (drones self) arm_all_body 0 w) as [c w'] eqn:Hrun.
  cbn [fst snd ret] in *.
  split; [exact Htr |]. split; [exact Hrep |].
  split; [| reflexivity].
  rewrite <- Hall. unfold Py.len. rewrite Z.eqb_eq. lia.
Qed.

End ArmAll.

(** ** Formation takeoff *)

Section TakeoffFormation.
Import Py Drone.
Local Open Scope R_scope.

(** The events of a takeoff do not depend on the events before it. *)
Lemma takeoff_frame (d : FormationDrone) (altitude : R)
  (rs : list (option bool)) (tr : list event) :
  takeoff d altitude {| replies := rs; trace := tr |} =
    let r := takeoff d altitude {| replies := rs; trace := [] |} in
    (fst r, {| replies := replies (snd r); trace := tr ++ trace (snd r) |}).
Proof.
  unfold takeoff, set_mode, arm, seq_bind, emit, await_result, ret.
  destruct (connected d); cbn; [| now rewrite app_nil_r].
  destruct rs as [|[[|]|] [|[[|]|] [|r3 rs]]]; cbn;
    rewrite <- ?app_assoc; reflexivity.
Qed.

Lemma takeoff_acknowledged (d : FormationDrone) (altitude : R)
  (rs : list (option bool)) (tr : list event) :
  connected d = true ->
  takeoff d altitude
    {| replies := Some true :: Some true :: Some true :: rs; trace := tr |} =
    (true, {| replies := rs; trace := tr ++ takeoff_calls altitude d |}).
Proof.
  intros Hd.
  unfold takeoff, set_mode, arm, seq_bind, emit, await_result, ret, takeoff_calls.
  rewrite Hd. cbn. rewrite <- !app_assoc. reflexivity.
Qed.

Lemma takeoff_true_inv (d : FormationDrone) (altitude : R) (w : World) :
  fst (takeoff d altitude w) = true ->
  connected d = true /\
  exists rs, replies w = Some true :: Some true :: Some true :: rs.
Proof.
  destruct w as [rs tr].
  unfold takeoff, set_mode, arm, seq_bind, emit, await_result, ret.
  destruct (connected d); cbn; [| discriminate].
  destruct rs as [|[[|]|] [|[[|]|] [|[[|]|] rs]]]; cbn; try discriminate.
  intros _. eauto.
Qed.

Lemma takeoff_formation_loop_cons (altitude : R) (i : Z) (d : FormationDrone)
  (items : list (Z * FormationDrone)) (w : World) :
  takeoff_formation_loop altitude ((i, d) :: items) w =
    let r := takeoff d altitude {| replies := replies w; trace := [] |} in
    let w' := {| replies := replies (snd r);
                 trace := trace w ++ stagger i ++ trace (snd r) |} in
    if fst r then takeoff_formation_loop altitude items w' else (false, w').
Proof.
  cbn [takeoff_formation_loop]. unfold seq_bind at 1.
  assert (Hstag : (if (0 <? i)%Z then emit (Sleep 1.0) else ret tt) w =
                  (tt, {| replies := replies w; trace := trace w ++ stagger i |})).
  { unfold stagger. destruct (0 <? i)%Z; [reflexivity |].
    unfold ret. rewrite app_nil_r. now destruct w. }
  rewrite Hstag. unfold seq_bind. rewrite takeoff_frame. cbn zeta.
  rewrite <- app_assoc.
  destruct (fst (takeoff d altitude {| replies := replies w; trace := [] |}));
    reflexivity.
Qed.

Lemma repeat_three_more {A} (x : A) (n : nat) :
  repeat x (3 * S n) = x :: x :: x :: repeat x (3 * n).
Proof. replace (3 * S n)%nat with (S (S (S (3 * n)))) by lia. reflexivity. Qed.

Lemma firstn_three_more {A} (x y z : A) (l : list A) (n : nat) :
  firstn (3 * S n) (x :: y :: z :: l) = x :: y :: z :: firstn (3 * n) l.
Proof. replace (3 * S n)%nat with (S (S (S (3 * n)))) by lia. reflexivity. Qed.

Lemma takeoff_formation_loop_all (altitude : R) (ds : list FormationDrone) :
  forall (i : Z) (w : World) (rs : list (option bool)),
    Forall (fun d => connected d = true) ds ->
    replies w = repeat (Some true) (3 * length ds) ++ rs ->
    takeoff_formation_loop altitude (enumerate_from i ds) w =
      (true, {| replies := rs;
                trace := trace w ++ staggered_takeoffs altitude i ds ++ [Sleep 10] |}).
Proof.
  induction ds as [|d ds IH]; intros i w rs Hall Hrep.
  - simpl in *. unfold seq_bind, emit, ret. now rewrite Hrep.
  - inversion Hall as [|? ? Hd Hall']; subst.
    cbn [enumerate_from length] in *. rewrite takeoff_formation_loop_cons.
    rewrite Hrep, repeat_three_more. cbn [app].
    rewrite takeoff_acknowledged by exact Hd. cbn [fst snd replies trace app].
    rewrite (fun w' => IH (i + 1)%Z w' rs Hall') by reflexivity.
    cbn [trace staggered_takeoffs]. rewrite <- !app_assoc. reflexivity.
Qed.

Lemma takeoff_formation_loop_first_failure (altitude : R)
  (pre : list FormationDrone) (d : FormationDrone) (post : list FormationDrone) :
  forall (i : Z) (w : World) (rs : list (option bool)),
    Forall (fun d => connected d = true) pre ->
    replies w = repeat (Some true) (3 * length pre) ++ rs ->
    fst (takeoff d altitude {| replies := rs; trace := [] |}) = false ->
    takeoff_formation_loop altitude (enumerate_from i (pre ++ d :: post)) w =
      (false,
       {| replies := replies (snd (takeoff d altitude {| replies := rs; trace := [] |}));
          trace := trace w ++ staggered_takeoffs altitude i pre
                   ++ stagger (i + Z.of_nat (length pre))
                   ++ trace (snd (takeoff d altitude {| replies := rs; trace := [] |})) |}).
Proof.
  induction pre as [|p pre IH]; intros i w rs Hall Hrep Hfail.
  - simpl in Hrep. cbn [app enumerate_from]. rewrite takeoff_formation_loop_cons.
    rewrite Hrep. cbn zeta. rewrite Hfail.
    cbn [staggered_takeoffs length app]. now rewrite Z.add_0_r.
  - inversion Hall as [|? ? Hp Hall']; subst.
    cbn [app enumerate_from length] in *. rewrite takeoff_formation_loop_cons.
    rewrite Hrep, repeat_three_more. cbn [app].
    rewrite takeoff_acknowledged by exact Hp. cbn [fst snd replies trace app].
    rewrite (fun w' H => IH (i + 1)%Z w' rs Hall' H Hfail) by reflexivity.
    cbn [trace staggered_takeoffs]. rewrite <- !app_assoc.
    replace (i + 1 + Z.of_nat (length pre))%Z
      with (i + Z.of_nat (S (length pre)))%Z by lia.
    reflexivity.
Qed.

Lemma takeoff_formation_loop_true_inv (altitude : R) (ds : list FormationDrone) :
  forall (i : Z) (w : World),
    fst (takeoff_formation_loop altitude (enumerate_from i ds) w) = true ->
    Forall (fun d => connected d = true) ds /\
    firstn (3 * length ds) (replies w) = repeat (Some true) (3 * length ds).
Proof.
  induction ds as [|d ds IH]; intros i w Hok.
  - split; [constructor | reflexivity].
  - cbn [enumerate_from] in Hok. rewrite takeoff_formation_loop_cons in Hok.
    cbn zeta in Hok.
    destruct (fst (takeoff d altitude {| replies := replies w; trace := [] |})) eqn:Hd;
      [| discriminate Hok].
    apply takeoff_true_inv in Hd as [Hc [rs Hrs]]. cbn [replies] in Hrs.
    rewrite Hrs in Hok. rewrite takeoff_acknowledged in Hok by exact Hc.
    cbn [fst snd replies] in Hok.
    apply IH in Hok as [Hall Hfirst]. cbn [replies] in Hfirst.
    split; [now constructor |].
    cbn [length]. rewrite Hrs, firstn_three_more, repeat_three_more, Hfirst.
    reflexivity.
Qed.

(** C4.  [takeoff_formation] takes the drones off one after the other in
    registration order, sleeping one second before every drone but the
    first.  It returns true exactly when every takeoff succeeds (every drone
    connected, every service call answered with success); it then sleeps
    ten seconds before returning.  When the takeoffs of the drones [pre]
    succeed and the takeoff of the next drone [d] fails, it returns false at
    once: the events end with those of the failed attempt, nothing is done
    for the drones after [d], and there is no final sleep. *)
Theorem takeoff_formation_fail_fast (self : Controller) (altitude : R) (w : World) :
  let n := length (drones self) in
  (fst (takeoff_formation self altitude w) = true <->
   Forall (fun d => connected d = true) (drones self) /\
   firstn (3 * n) (replies w) = repeat (Some true) (3 * n)) /\
  (fst (takeoff_formation self altitude w) = true ->
   trace (snd (takeoff_formation self altitude w)) =
     trace w ++ staggered_takeoffs altitude 0 (drones self) ++ [Sleep 10]) /\
  (forall pre d post rs,
      drones self = pre ++ d :: post ->
      Forall (fun d => connected d = true) pre ->
      replies w = repeat (Some true) (3 * length pre) ++ rs ->
      fst (takeoff d altitude {| replies := rs; trace := [] |}) = false ->
      fst (takeoff_formation self altitude w) = false /\
      trace (snd (takeoff_formation self altitude w)) =
        trace w ++ staggered_takeoffs altitude 0 pre
        ++ stagger (Z.of_nat (length pre))
        ++ trace (snd (takeoff d altitude {| replies := rs; trace := [] |}))).
Proof.
  intros n. subst n. unfold takeoff_formation, enumerate.
  assert (Hall_ok :
    Forall (fun d => connected d = true) (drones self) /\
    firstn (3 * length (drones self)) (replies w)
      = repeat (Some true) (3 * length (drones self)) ->
    takeoff_formation_loop altitude (enumerate_from 0 (drones self)) w =
      (true, {| replies := skipn (3 * length (drones self)) (replies w);
                trace := trace w ++ staggered_takeoffs altitude 0 (drones self)
                         ++ [Sleep 10] |})).
  { intros [Hall Hfirst]. apply takeoff_formation_loop_all; [exact Hall |].
    rewrite <- Hfirst. symmetry. apply firstn_skipn. }
  split; [split |].
  - apply takeoff_formation_loop_true_inv.
  - intros H. now rewrite (Hall_ok H).
  - split.
    + intros Hok. apply takeoff_formation_loop_true_inv in Hok.
      now rewrite (Hall_ok Hok).
    + intros pre d post rs Hsplit Hpre Hrep Hfail. rewrite Hsplit.
      rewrite (takeoff_formation_loop_first_failure altitude pre d post 0 w rs
                 Hpre Hrep Hfail).
      cbn [fst snd trace]. split; [reflexivity |]. now rewrite Z.add_0_l.
Qed.

Lemma takeoff_formation_fail_fast_witness :
  let w := {| replies := [Some true; Some true; Some true; Some true; None];
              trace := [] |} in
  fst (takeoff_formation online_fleet 10 w) = false /\
  trace (snd (takeoff_formation online_fleet 10 w)) =
    [ CallSetMode "leader" "GUIDED"; Sleep 0.5; CallArming "leader" true; Sleep 0.5;
      CallTakeoff "leader" 10;
      Sleep 1.0;
      CallSetMode "drone_1" "GUIDED"; Sleep 0.5; CallArming "drone_1" true ].
Proof.
  intros w.
  destruct (takeoff_formation_fail_fast online_fleet 10 w) as (_ & _ & Hfail).
  apply (Hfail [online "leader"] (online "drone_1") [online "drone_2"] [Some true; None]).
  - reflexivity.
  - repeat constructor.
  - reflexivity.
  - reflexivity.
Defined.

End TakeoffFormation.

(** ** Landing *)

Section Land.
Import FlightController.
Local Open Scope Z_scope.

Lemma armed_flag_test (x : Z) :
  (Z.land x MAV_MODE_FLAG_SAFETY_ARMED =? 0) = negb (Z.testbit x 7).
Proof.
  unfold MAV_MODE_FLAG_SAFETY_ARMED.
  destruct (Z.testbit x 7) eqn:Hb; simpl.
  - apply Z.eqb_neq. intros H.
    assert (Ht : Z.testbit (Z.land x 128) 7 = true)
      by (rewrite Z.land_spec, Hb; reflexivity).
    rewrite H in Ht. discriminate.
  - apply Z.eqb_eq, Z.bits_inj'. intros n Hn.
    rewrite Z.land_spec, Z.bits_0.
    destruct (Z.eq_dec n 7) as [-> | Hne].
    + now rewrite Hb.
    + change 128 with (2 ^ 7). rewrite Z.pow2_bits_false by lia.
      apply andb_false_r.
Qed.

Lemma disarmed_heartbeat_test (msg : option Heartbeat) :
  match msg with
  | Some m => (Z.land (base_mode m) MAV_MODE_FLAG_SAFETY_ARMED =? 0)
  | None => false
  end = true <-> disarmed_heartbeat msg.
Proof.
  unfold disarmed_heartbeat. destruct msg as [m |].
  - rewrite armed_flag_test, negb_true_iff. split.
    + intros H. eauto.
    + intros [m' [Hm H]]. now injection Hm as <-.
  - split; [discriminate | intros [m [Hm _]]; discriminate].
Qed.

(** The loop returns true when the inbox holds a disarmed heartbeat and is
    still waiting at the end of the inbox when it holds none. *)
Lemma land_loop_outcome (inbox : list (option Heartbeat)) :
  (fst (land_loop inbox) = Some true /\ Exists disarmed_heartbeat inbox) \/
  (fst (land_loop inbox) = None /\ ~ Exists disarmed_heartbeat inbox).
Proof.
  induction inbox as [|msg inbox IH]; cbn [land_loop].
  - right. split; [reflexivity | intros H; inversion H].
  - pose proof (disarmed_heartbeat_test msg) as Htest.
    destruct (match msg with
              | Some m => Z.land (base_mode m) MAV_MODE_FLAG_SAFETY_ARMED =? 0
              | None => false
              end).
    + left. split; [reflexivity | constructor; now apply Htest].
    + assert (Hmsg : ~ disarmed_heartbeat msg) by (intros H; now apply Htest in H).
      destruct (land_loop inbox) as [r evs]. cbn [fst] in *.
      destruct IH as [[Hr Hex] | [Hr Hno]].
      * left. split; [exact Hr | now constructor].
      * right. split; [exact Hr |].
        intros H. inversion H; subst; contradiction.
Qed.

Lemma land_result (self : Master) (inbox : list (option Heartbeat)) :
  fst (land self inbox) = fst (land_loop inbox) /\
  exists evs,
    snd (land self inbox) =
      [ SetModeSend (target_system self) MAV_MODE_FLAG_CUSTOM_MODE_ENABLED 9;
        Sleep 2 ] ++ evs.
Proof.
  unfold land. change (set_mode self "LAND") with
    (true, [ SetModeSend (target_system self) MAV_MODE_FLAG_CUSTOM_MODE_ENABLED 9;
             Sleep 2 ]).
  destruct (land_loop inbox) as [r evs]. split; [reflexivity | now exists evs].
Qed.

(** C9.  [land] first commands LAND mode, then polls heartbeats.  It returns,
    with value true, exactly when the polled messages contain a heartbeat
    whose armed flag is cleared; it never returns false; and as long as no
    such heartbeat has arrived it has not returned: on a stream without a
    disarmed heartbeat it is still waiting after any number of polls, so
    the call does not terminate. *)
Theorem land_returns_only_on_disarm (self : Master) (inbox : list (option Heartbeat)) :
  (exists evs,
      snd (land self inbox) =
        [ SetModeSend (target_system self) MAV_MODE_FLAG_CUSTOM_MODE_ENABLED 9;
          Sleep 2 ] ++ evs) /\
  (fst (land self inbox) = Some true <-> Exists disarmed_heartbeat inbox) /\
  (fst (land self inbox) = None <-> ~ Exists disarmed_heartbeat inbox) /\
  fst (land self inbox) <> Some false /\
  (forall stream : nat -> option Heartbeat,
      (forall k, ~ disarmed_heartbeat (stream k)) ->
      forall n, fst (land self (first_polls stream n)) = None).
Proof.
  assert (Hcases : forall l,
    (fst (land self l) = Some true /\ Exists disarmed_heartbeat l) \/
    (fst (land self l) = None /\ ~ Exists disarmed_heartbeat l)).
  { intros l. destruct (land_result self l) as [-> _]. apply land_loop_outcome. }
  assert (Hstream : forall stream : nat -> option Heartbeat,
    (forall k, ~ disarmed_heartbeat (stream k)) ->
    forall n, fst (land self (first_polls stream n)) = None).
  { intros stream Hnever n.
    destruct (Hcases (first_polls stream n)) as [[_ Hex] | [Hr _]]; [| exact Hr].
    exfalso. unfold first_polls in Hex.
    apply List.Exists_exists in Hex as [msg [Hin Hmsg]].
    apply in_map_iff in Hin as [k [<- _]]. now apply (Hnever k). }
  split; [apply land_result |].
  destruct (Hcases inbox) as [[Hr Hex] | [Hr Hno]]; rewrite Hr.
  - split; [tauto |]. split; [split; [discriminate | tauto] |].
    split; [discriminate | exact Hstream].
  - split; [split; [discriminate | tauto] |]. split; [tauto |].
    split; [discriminate | exact Hstream].
Qed.

End Land.

(** ** Waiting for the takeoff altitude *)

Section TakeoffWait.
Import FlightController.
Local Open Scope R_scope.

Lemma steady_run_cons (a b : float) (history : list float) :
  steady_run (a :: b :: history) =
    if Py.flt (PrimFloat.abs (a - b)%float) 0.1%float
    then S (steady_run (b :: history)) else 0%nat.
Proof. reflexivity. Qed.

Lemma steady_run_three (a : float) (earlier : list float) :
  (3 <= steady_run (a :: earlier))%nat <-> steady_for_three a earlier.
Proof.
  unfold steady_for_three, steady.
  destruct earlier as [|b [|c [|d rest]]]; cbn [steady_run];
    repeat match goal with
      | |- context [Py.flt ?x ?y] => destruct (Py.flt x y)
      end;
    split; intros H; try lia; try tauto;
    try (destruct H as [H1 [H2 H3]]; discriminate).
Qed.

Lemma takeoff_success_from_nil (altitude : float) (history : list float) :
  ~ takeoff_success_from altitude history [].
Proof. intros (before & a & after & Heq & _). now destruct before. Qed.

Lemma takeoff_success_from_cons (altitude a : float) (history alts : list float) :
  takeoff_success_from altitude history (a :: alts) <->
  takeoff_success_at altitude a history \/
  takeoff_success_from altitude (a :: history) alts.
Proof.
  unfold takeoff_success_from. split.
  - intros (before & x & after & Heq & Hx).
    destruct before as [|y before]; cbn in Heq; injection Heq as <- ->.
    + left. exact Hx.
    + right. exists before, x, after. split; [reflexivity |].
      cbn [rev] in Hx. now rewrite <- app_assoc in Hx.
  - intros [Ha | (before & x & after & -> & Hx)].
    + exists [], a, alts. split; [reflexivity | exact Ha].
    + exists (a :: before), x, after. split; [reflexivity |].
      cbn [rev]. now rewrite <- app_assoc.
Qed.

Lemma fst_sleep_then {A} (x : option A * list takeoff_event) :
  fst (let (r, evs) := x in (r, TakeoffSleep 1 :: evs)) = fst x.
Proof. now destruct x. Qed.

(** A pass inside the window that receives the sample [a] without meeting
    the success condition hands over to the rest of the loop. *)
Lemma loop_outcome_sample (altitude : float) (start_time : R) (a : float)
  (history : list float) (t : Tick) (msg : GlobalPositionInt) (env : list Tick)
  (r : option bool) :
  tick_clock t - start_time < 30 ->
  tick_msg t = Some msg ->
  a = (Py.float_of_int (relative_alt msg) / 1000.0)%float ->
  ~ takeoff_success_at altitude a history ->
  loop_outcome altitude start_time (a :: history) env r ->
  loop_outcome altitude start_time history (t :: env) r.
Proof.
  intros Hin Hmsg Ha Hnot Hrest. unfold loop_outcome in *.
  cbn [in_window samples].
  destruct (Rlt_dec (tick_clock t - start_time) 30) as [_ | Hout]; [| contradiction].
  cbn [samples]. rewrite Hmsg, <- Ha.
  assert (Hhere : ~ timed_out start_time t) by (unfold timed_out; lra).
  cbn zeta in *. rewrite takeoff_success_from_cons.
  destruct Hrest as [[Hr Hok] | [[Hr [Hno Hto]] | [Hr [Hno Hto]]]].
  - left. tauto.
  - right. left. split; [exact Hr |]. split; [tauto | now constructor 2].
  - right. right. split; [exact Hr |]. split; [tauto |].
    intros H. inversion H; subst; contradiction.
Qed.

(** A pass inside the window that receives nothing changes nothing. *)
Lemma loop_outcome_silence (altitude : float) (start_time : R)
  (history : list float) (t : Tick) (env : list Tick) (r : option bool) :
  tick_clock t - start_time < 30 ->
  tick_msg t = None ->
  loop_outcome altitude start_time history env r ->
  loop_outcome altitude start_time history (t :: env) r.
Proof.
  intros Hin Hmsg Hrest. unfold loop_outcome in *.
  cbn [in_window samples].
  destruct (Rlt_dec (tick_clock t - start_time) 30) as [_ | Hout]; [| contradiction].
  cbn [samples]. rewrite Hmsg.
  assert (Hhere : ~ timed_out start_time t) by (unfold timed_out; lra).
  cbn zeta in *.
  destruct Hrest as [[Hr Hok] | [[Hr [Hno Hto]] | [Hr [Hno Hto]]]].
  - left. tauto.
  - right. left. split; [exact Hr |]. split; [tauto | now constructor 2].
  - right. right. split; [exact Hr |]. split; [tauto |].
    intros H. inversion H; subst; contradiction.
Qed.

Lemma takeoff_loop_outcome (altitude : float) (start_time : R) (env : list Tick) :
  forall (last : float) (earlier : list float),
    loop_outcome altitude start_time (last :: earlier) env
      (fst (takeoff_loop altitude start_time
              (Z.of_nat (steady_run (last :: earlier))) last env)).
Proof.
  induction env as [|t env IH]; intros last earlier.
  - right. right. split; [reflexivity |].
    split; [apply takeoff_success_from_nil | intros H; inversion H].
  - cbn [takeoff_loop].
    destruct (Py.lt (tick_clock t - start_time) 30) eqn:Hin.
    2:{ apply lt_false in Hin. right. left. split; [reflexivity |].
        cbn [in_window].
        destruct (Rlt_dec (tick_clock t - start_time) 30); [lra |].
        split; [apply takeoff_success_from_nil | now constructor 1]. }
    apply lt_true in Hin.
    destruct (tick_msg t) as [msg |] eqn:Hmsg.
    2:{ rewrite fst_sleep_then. now apply loop_outcome_silence. }
    cbv zeta.
    set (a := (Py.float_of_int (relative_alt msg) / 1000.0)%float).
    destruct (Py.fge a (altitude * 0.90)%float) eqn:Hge.
    { left. cbn [fst]. split; [reflexivity |].
      cbn [in_window]. destruct (Rlt_dec (tick_clock t - start_time) 30); [| lra].
      cbn [samples]. rewrite Hmsg. fold a.
      apply takeoff_success_from_cons. left. left. exact Hge. }
    pose proof (steady_run_cons a last earlier) as Hrun.
    pose proof (steady_run_three a (last :: earlier)) as Hthree.
    destruct (Py.flt (PrimFloat.abs (a - last)%float) 0.1%float) eqn:Hst.
    + replace (Z.of_nat (steady_run (last :: earlier)) + 1)%Z
        with (Z.of_nat (steady_run (a :: last :: earlier))) by (rewrite Hrun; lia).
      destruct ((3 <=? Z.of_nat (steady_run (a :: last :: earlier)))%Z
                && Py.fge a (altitude * 0.85)%float) eqn:Hboth.
      * apply andb_true_iff in Hboth as [Hcount Hfloor].
        apply Z.leb_le in Hcount.
        left. cbn [fst]. split; [reflexivity |].
        cbn [in_window]. destruct (Rlt_dec (tick_clock t - start_time) 30); [| lra].
        cbn [samples]. rewrite Hmsg. fold a.
        apply takeoff_success_from_cons. left. right.
        split; [apply Hthree; lia | exact Hfloor].
      * rewrite fst_sleep_then.
        apply (loop_outcome_sample altitude start_time a (last :: earlier) t msg);
          [exact Hin | exact Hmsg | reflexivity | | apply IH].
        unfold takeoff_success_at, reaches.
        intros [Hhigh | [Hsteady Hfloor]]; [congruence |].
        apply Hthree in Hsteady.
        apply andb_false_iff in Hboth as [Hcount | Hlow].
        -- apply Z.leb_gt in Hcount. lia.
        -- congruence.
    + rewrite fst_sleep_then.
      replace 0%Z with (Z.of_nat (steady_run (a :: last :: earlier)))
        by (rewrite Hrun; reflexivity).
      apply (loop_outcome_sample altitude start_time a (last :: earlier) t msg);
        [exact Hin | exact Hmsg | reflexivity | | apply IH].
      unfold takeoff_success_at, reaches.
      intros [Hhigh | [Hsteady Hfloor]]; [congruence |].
      apply Hthree in Hsteady. rewrite Hrun in Hsteady. lia.
Qed.

Lemma in_window_inside (start_time : R) (t : Tick) (env : list Tick) :
  tick_clock t - start_time < 30 ->
  in_window start_time (t :: env) = t :: in_window start_time env.
Proof.
  intros H. cbn [in_window].
  destruct (Rlt_dec (tick_clock t - start_time) 30); [reflexivity | contradiction].
Qed.

Lemma in_window_closed (start_time : R) (t : Tick) (env : list Tick) :
  30 <= tick_clock t - start_time ->
  in_window start_time (t :: env) = [].
Proof.
  intros H. cbn [in_window].
  destruct (Rlt_dec (tick_clock t - start_time) 30); [lra | reflexivity].
Qed.

(** C3.  The wait loop of [takeoff] returns true exactly when, among the
    altitude samples received while less than 30 seconds have elapsed, some
    sample is at least 0.9 times the target, or some sample is at least 0.85
    times the target and it and the two samples before it each changed by
    less than 0.1 m from the altitude before (the altitude before the first
    sample being 0).  It returns false exactly when no sample inside the
    window does so and the window closes; until then it is still waiting.
    Samples, products and differences are the binary64 numbers the loop
    computes, and the comparisons are made on them. *)
Theorem takeoff_wait_outcome (self : Master) (altitude : float) (start_time : R)
  (env : list Tick) :
  let alts := samples (in_window start_time env) in
  let r := fst (takeoff self altitude start_time env) in
  (r = Some true <-> takeoff_success altitude alts) /\
  (r = Some false <->
   ~ takeoff_success altitude alts /\ Exists (timed_out start_time) env) /\
  (r = None <->
   ~ takeoff_success altitude alts /\ ~ Exists (timed_out start_time) env).
Proof.
  intros alts r.
  assert (Hr : r = fst (takeoff_loop altitude start_time
                          (Z.of_nat (steady_run [0%float])) 0%float env)).
  { subst r. unfold takeoff. change (Z.of_nat (steady_run [0%float])) with 0%Z.
    now destruct (takeoff_loop altitude start_time 0 0%float env). }
  pose proof (takeoff_loop_outcome altitude start_time env 0%float []) as Hout.
  rewrite <- Hr in Hout. unfold loop_outcome in Hout. cbn zeta in Hout.
  fold alts in Hout. fold (takeoff_success altitude alts) in Hout.
  clearbody r alts.
  destruct Hout as [[-> Hok] | [[-> [Hno Hto]] | [-> [Hno Hto]]]];
    repeat split; intros; try discriminate; tauto.
Qed.

Lemma takeoff_wait_outcome_witness :
  let master := {| target_system := 1; target_component := 1 |} in
  fst (takeoff master 10 0 climb_to_9_1) = Some true /\
  fst (takeoff master 10 0 stuck_at_5) = Some false.
Proof.
  intros master. split.
  - apply (proj1 (takeoff_wait_outcome master 10 0 climb_to_9_1)).
    unfold climb_to_9_1, pass_at.
    rewrite !in_window_inside by (cbn; lra).
    cbn [in_window samples tick_msg relative_alt].
    eexists [_], _, []. split; [reflexivity |].
    left. reflexivity.
  - apply (proj1 (proj2 (takeoff_wait_outcome master 10 0 stuck_at_5))).
    unfold stuck_at_5, pass_at. cbn [map]. split.
    + rewrite !in_window_inside by (cbn; lra).
      rewrite in_window_closed by (cbn; lra).
      cbn [samples tick_msg relative_alt]. unfold takeoff_success.
      rewrite !takeoff_success_from_cons.
      pose proof (takeoff_success_from_nil 10) as Hnil.
      unfold takeoff_success_at, reaches.
      intros H.
      repeat (destruct H as [[H | [_ H]] | H];
              [vm_compute in H; discriminate | vm_compute in H; discriminate |]).
      now apply Hnil in H.
    + apply List.Exists_exists.
      exists {| tick_clock := 30; tick_msg := Some {| relative_alt := 5000 |} |}.
      split; [cbn; tauto | unfold timed_out; cbn; lra].
Defined.

(** C3, as stated, fails: a vehicle that holds 11.7 m has reached 0.9 times
    the target 13 m, yet [takeoff] returns false when the window closes.  In
    binary64, [13 * 0.90] is 11.700000000000001 and [11700 / 1000.0] is
    11.699999999999999. *)
Lemma takeoff_misses_exact_nine_tenths :
  let master := {| target_system := 1; target_component := 1 |} in
  0.9 * 13 <= IZR 11700 / 1000 /\
  fst (takeoff master 13 0 hold_at_11_7) = Some false.
Proof.
  intros master. split; [lra |].
  unfold takeoff, hold_at_11_7, pass_at.
  cbn [takeoff_loop tick_clock tick_msg relative_alt].
  replace (Py.lt (1 - 0) 30) with true by (symmetry; apply lt_true; lra).
  replace (Py.lt (31 - 0) 30) with false by (symmetry; apply lt_false; lra).
  reflexivity.
Qed.

End TakeoffWait.

(** * Further properties of the code *)

(** ** Geometry of the patterns *)

Section FormationGeometry.
Import Py Drone.
Local Open Scope R_scope.

Lemma nth_error_enumerate_from {A} (l : list A) :
  forall (i : Z) (k : nat),
    nth_error (enumerate_from i l) k =
      option_map (fun x => ((i + Z.of_nat k)%Z, x)) (nth_error l k).
Proof.
  induction l as [|x l IH]; intros i [|k]; cbn [enumerate_from nth_error option_map];
    try reflexivity.
  - now rewrite Z.add_0_r.
  - rewrite IH. destruct (nth_error l k); cbn [option_map]; [| reflexivity].
    do 2 f_equal. lia.
Qed.

Lemma line_slot (self : Controller) (k : nat) :
  (k < length (drones self))%nat ->
  exists positions,
    line_formation self = Ok positions /\
    nth_error positions k =
      Some (center_x self
            + (IZR (Z.of_nat k) - IZR (len (drones self)) / 2) * formation_spacing self,
            center_y self, center_z self).
Proof.
  intros Hk. eexists. split; [apply line_formation_offsets |].
  rewrite nth_error_map. unfold enumerate. rewrite nth_error_enumerate_from.
  destruct (nth_error (drones self) k) as [d |] eqn:Hd.
  - reflexivity.
  - apply nth_error_None in Hd. lia.
Qed.

(** X1.  The line pattern puts slot [k] at [(k - n / 2) * spacing] along x
    from the centre, at the centre's y and z.  Neighbouring slots are
    exactly one spacing apart, and the line is not centred on the centre:
    the midpoint of its first and last slot lies half a spacing behind it. *)
Theorem line_slots_spacing (self : Controller) :
  exists positions,
    line_formation self = Ok positions /\
    (forall k, (k < length (drones self))%nat ->
       nth_error positions k =
         Some (center_x self
               + (IZR (Z.of_nat k) - IZR (len (drones self)) / 2)
                 * formation_spacing self,
               center_y self, center_z self)) /\
    (forall k p q,
       nth_error positions k = Some p -> nth_error positions (S k) = Some q ->
       fst (fst q) - fst (fst p) = formation_spacing self) /\
    (forall p q,
       nth_error positions 0 = Some p ->
       nth_error positions (length (drones self) - 1) = Some q ->
       fst (fst p) + fst (fst q) = 2 * center_x self - formation_spacing self).
Proof.
  destruct (line_formation_length self) as [positions [Hps Hlen]].
  assert (Hslot : forall k, (k < length (drones self))%nat ->
    nth_error positions k =
      Some (center_x self
            + (IZR (Z.of_nat k) - IZR (len (drones self)) / 2)
              * formation_spacing self,
            center_y self, center_z self)).
  { intros k Hk. destruct (line_slot self k Hk) as [ps' [Hps' Hnth]].
    rewrite Hps in Hps'. now injection Hps' as <-. }
  assert (Hin : forall k p, nth_error positions k = Some p ->
                            (k < length (drones self))%nat).
  { intros k p Hp. rewrite <- Hlen. apply nth_error_Some. congruence. }
  exists positions. split; [exact Hps |]. split; [exact Hslot |]. split.
  - intros k p q Hp Hq.
    rewrite (Hslot k (Hin _ _ Hp)) in Hp. rewrite (Hslot (S k) (Hin _ _ Hq)) in Hq.
    injection Hp as <-. injection Hq as <-. cbn [fst].
    rewrite Nat2Z.inj_succ, succ_IZR. lra.
  - intros p q Hp Hq.
    pose proof (Hin _ _ Hp) as H0.
    rewrite (Hslot 0%nat H0) in Hp. rewrite (Hslot _ (Hin _ _ Hq)) in Hq.
    injection Hp as <-. injection Hq as <-. cbn [fst]. unfold len.
    rewrite Nat2Z.inj_sub by lia. rewrite minus_IZR.
    change (IZR (Z.of_nat 0)) with 0. change (IZR (Z.of_nat 1)) with 1. field.
Qed.

Lemma circle_formation_slots (self : Controller) :
  circle_formation self =
    Ok (map (fun '(i, _) =>
               let angle := 2 * PI * IZR i / IZR (len (drones self)) in
               (center_x self + formation_spacing self * cos angle,
                center_y self + formation_spacing self * sin angle,
                center_z self))
          (enumerate (drones self))).
Proof.
  unfold circle_formation.
  apply (for_each_map (enumerate (drones self)) _
           (fun '(i, _) =>
              let angle := 2 * PI * IZR i / IZR (len (drones self)) in
              (center_x self + formation_spacing self * cos angle,
               center_y self + formation_spacing self * sin angle,
               center_z self))).
  intros [i d] s Hin. apply enumerate_from_bounds in Hin.
  rewrite truediv_ok; [reflexivity |]. apply not_0_IZR. lia.
Qed.

(** X2.  Every slot of the circle pattern lies in the horizontal plane of
    the centre, at distance [spacing] from it; slot 0 sits at angle zero,
    that is at [center + (spacing, 0, 0)]. *)
Theorem circle_slots_on_radius (self : Controller) :
  exists positions,
    circle_formation self = Ok positions /\
    Forall (fun p : Vec3 =>
              (fst (fst p) - center_x self) * (fst (fst p) - center_x self)
              + (snd (fst p) - center_y self) * (snd (fst p) - center_y self)
              = formation_spacing self * formation_spacing self /\
              snd p = center_z self) positions /\
    (forall p, nth_error positions 0 = Some p ->
               p = (center_x self + formation_spacing self, center_y self,
                    center_z self)).
Proof.
  eexists. split; [apply circle_formation_slots |]. split.
  - apply List.Forall_forall. intros p Hp.
    apply in_map_iff in Hp as [[i d] [<- _]]. cbn [fst snd]. split; [| reflexivity].
    set (angle := 2 * PI * IZR i / IZR (len (drones self))).
    pose proof (sin2_cos2 angle) as Hunit. unfold Rsqr in Hunit.
    replace (center_x self + formation_spacing self * cos angle - center_x self)
      with (formation_spacing self * cos angle) by ring.
    replace (center_y self + formation_spacing self * sin angle - center_y self)
      with (formation_spacing self * sin angle) by ring.
    replace (formation_spacing self * cos angle * (formation_spacing self * cos angle)
             + formation_spacing self * sin angle * (formation_spacing self * sin angle))
      with (formation_spacing self * formation_spacing self
            * (sin angle * sin angle + cos angle * cos angle)) by ring.
    rewrite Hunit. ring.
  - intros p Hp. unfold enumerate in Hp.
    destruct (drones self) as [|d ds]; [discriminate Hp |].
    cbn [enumerate_from map nth_error] in Hp. injection Hp as <-.
    replace (2 * PI * 0 / IZR (len (d :: ds))) with 0
      by (unfold Rdiv; ring).
    rewrite cos_0, sin_0. do 2 f_equal; [f_equal |]; ring.
Qed.

Lemma square_formation_slots (self : Controller) :
  square_formation self =
    Ok (map (fun '(i, _) =>
               if (i <? 4)%Z then
                 (center_x self
                  + (if (i =? 1)%Z || (i =? 2)%Z
                     then (- formation_spacing self) / 2
                     else formation_spacing self / 2),
                  center_y self
                  + (if (i =? 2)%Z || (i =? 3)%Z
                     then (- formation_spacing self) / 2
                     else formation_spacing self / 2),
                  center_z self)
               else (center_x self, center_y self,
                     center_z self + IZR ((i - 3) * 2)))
          (enumerate (drones self))).
Proof.
  unfold square_formation. rewrite !truediv_two. cbn [bind].
  match goal with
  | |- for_each ?xs ?body [] = Ok (map ?f ?xs) => apply (for_each_map xs body f)
  end.
  intros [i d] s Hin. apply enumerate_from_bounds in Hin.
  destruct (i <? 4)%Z eqn:Hi4; [| reflexivity].
  apply Z.ltb_lt in Hi4.
  assert (Hcases : i = 0%Z \/ i = 1%Z \/ i = 2%Z \/ i = 3%Z) by lia.
  destruct Hcases as [-> | [-> | [-> | ->]]]; reflexivity.
Qed.

(** X3.  With four drones or more, the first four slots of the square
    pattern are the corners of the square of side [spacing] centred on the
    centre, in the order (+,+), (-,+), (-,-), (+,-) of their x and y
    offsets, all at the centre's height. *)
Theorem square_corners (self : Controller) :
  (4 <= length (drones self))%nat ->
  exists positions,
    square_formation self = Ok positions /\
    firstn 4 positions =
      [ (center_x self + formation_spacing self / 2,
         center_y self + formation_spacing self / 2, center_z self);
        (center_x self + (- formation_spacing self) / 2,
         center_y self + formation_spacing self / 2, center_z self);
        (center_x self + (- formation_spacing self) / 2,
         center_y self + (- formation_spacing self) / 2, center_z self);
        (center_x self + formation_spacing self / 2,
         center_y self + (- formation_spacing self) / 2, center_z self) ].
Proof.
  intros Hn. eexists. split; [apply square_formation_slots |].
  unfold enumerate.
  destruct (drones self) as [|d0 [|d1 [|d2 [|d3 ds]]]]; simpl in Hn; try lia.
  reflexivity.
Qed.

Lemma square_corners_witness :
  exists positions,
    square_formation fleet_of_four = Ok positions /\
    firstn 4 positions =
      [ (center_x fleet_of_four + formation_spacing fleet_of_four / 2,
         center_y fleet_of_four + formation_spacing fleet_of_four / 2,
         center_z fleet_of_four);
        (center_x fleet_of_four + (- formation_spacing fleet_of_four) / 2,
         center_y fleet_of_four + formation_spacing fleet_of_four / 2,
         center_z fleet_of_four);
        (center_x fleet_of_four + (- formation_spacing fleet_of_four) / 2,
         center_y fleet_of_four + (- formation_spacing fleet_of_four) / 2,
         center_z fleet_of_four);
        (center_x fleet_of_four + formation_spacing fleet_of_four / 2,
         center_y fleet_of_four + (- formation_spacing fleet_of_four) / 2,
         center_z fleet_of_four) ].
Proof.
  apply (square_corners fleet_of_four). simpl. lia.
Defined.

Lemma diamond_formation_stack (self : Controller) :
  (4 <= len (drones self))%Z ->
  diamond_formation self =
    Ok ([ (center_x self + formation_spacing self, center_y self, center_z self);
          (center_x self, center_y self - formation_spacing self, center_z self);
          (center_x self, center_y self + formation_spacing self, center_z self);
          (center_x self - formation_spacing self, center_y self, center_z self) ]
        ++ map (fun i => (center_x self, center_y self,
                          center_z self + IZR ((i - 3) * 2)))
             (range 4 (len (drones self)))).
Proof.
  intros Hn. unfold diamond_formation.
  destruct (1 <=? len (drones self))%Z eqn:H1; [| apply Z.leb_gt in H1; lia].
  destruct (2 <=? len (drones self))%Z eqn:H2; [| apply Z.leb_gt in H2; lia].
  destruct (3 <=? len (drones self))%Z eqn:H3; [| apply Z.leb_gt in H3; lia].
  destruct (4 <=? len (drones self))%Z eqn:H4; [| apply Z.leb_gt in H4; lia].
  apply for_each_map. reflexivity.
Qed.

(** X4.  In the square and in the diamond pattern alike, every slot [k >= 4]
    is stacked straight above the centre, [2 * (k - 3)] above its height:
    the fifth drone flies 2 m above the centre, the sixth 4 m, and the two
    patterns agree on these slots. *)
Theorem extra_slots_stack_above_centre (self : Controller) (k : nat) :
  (4 <= k < length (drones self))%nat ->
  exists square diamond,
    square_formation self = Ok square /\
    diamond_formation self = Ok diamond /\
    nth_error square k =
      Some (center_x self, center_y self,
            center_z self + 2 * (IZR (Z.of_nat k) - 3)) /\
    nth_error diamond k = nth_error square k.
Proof.
  intros Hk.
  assert (Hz : IZR ((Z.of_nat k - 3) * 2) = 2 * (IZR (Z.of_nat k) - 3))
    by (rewrite mult_IZR, minus_IZR; ring).
  assert (Hsq : forall ps, square_formation self = Ok ps ->
    nth_error ps k = Some (center_x self, center_y self,
                           center_z self + 2 * (IZR (Z.of_nat k) - 3))).
  { intros ps Hps. rewrite square_formation_slots in Hps. injection Hps as <-.
    rewrite nth_error_map. unfold enumerate. rewrite nth_error_enumerate_from.
    destruct (nth_error (drones self) k) as [d |] eqn:Hd;
      [| apply nth_error_None in Hd; lia].
    cbn [option_map]. rewrite Z.add_0_l.
    destruct (Z.of_nat k <? 4)%Z eqn:Hlt; [apply Z.ltb_lt in Hlt; lia |].
    now rewrite Hz. }
  eexists. eexists. split; [apply square_formation_slots |].
  split; [apply diamond_formation_stack; unfold len; lia |].
  split; [apply Hsq, square_formation_slots |].
  rewrite (Hsq _ (square_formation_slots self)).
  replace k with (4 + (k - 4))%nat at 1 by lia.
  cbn [app nth_error Nat.add].
  rewrite nth_error_map.
  replace (k - 4)%nat with (Z.to_nat (Z.of_nat k - 4)) by lia.
  rewrite nth_error_range by (unfold len; lia).
  cbn [option_map]. now rewrite Hz.
Qed.

Lemma extra_slots_stack_above_centre_witness :
  exists square diamond,
    square_formation fleet_of_five = Ok square /\
    diamond_formation fleet_of_five = Ok diamond /\
    nth_error square 4 =
      Some (center_x fleet_of_five, center_y fleet_of_five,
            center_z fleet_of_five + 2 * (IZR (Z.of_nat 4) - 3)) /\
    nth_error diamond 4 = nth_error square 4.
Proof.
  apply (extra_slots_stack_above_centre fleet_of_five 4). simpl. lia.
Defined.

(** Two loops whose bodies commute with a map of the positions produce
    results related by that map. *)
Lemma for_each_mapped {A} (T : Vec3 -> Vec3) (xs : list A)
  (body1 body2 : A -> list Vec3 -> result (list Vec3)) :
  (forall x s, body2 x (map T s) = bind (body1 x s) (fun s' => Ok (map T s'))) ->
  forall s, for_each xs body2 (map T s)
            = bind (for_each xs body1 s) (fun r => Ok (map T r)).
Proof.
  intros Hbody. induction xs as [|x xs IH]; intros s; cbn [for_each].
  - reflexivity.
  - rewrite Hbody. destruct (body1 x s) as [s' | e]; cbn [bind]; [apply IH | reflexivity].
Qed.

Ltac vec_eq := repeat first [reflexivity | ring | progress f_equal].

Ltac moved_centre :=
  change (drones (move_formation ?c ?dx ?dy ?dz)) with (drones c);
  change (formation_spacing (move_formation ?c ?dx ?dy ?dz)) with (formation_spacing c);
  change (center_x (move_formation ?c ?dx ?dy ?dz)) with (center_x c + dx);
  change (center_y (move_formation ?c ?dx ?dy ?dz)) with (center_y c + dy);
  change (center_z (move_formation ?c ?dx ?dy ?dz)) with (center_z c + dz).

Ltac translated_body :=
  cbn [bind]; rewrite ?map_app; cbn [map app]; unfold translate; cbn [fst snd]; vec_eq.

Lemma bind_mapped {A} (T : Vec3 -> Vec3) (r : result A) (g1 g2 : A -> Vec3)
  (s : list Vec3) :
  (forall a, g2 a = T (g1 a)) ->
  bind r (fun a => Ok (map T s ++ [g2 a])) =
    bind (bind r (fun a => Ok (s ++ [g1 a]))) (fun s' => Ok (map T s')).
Proof.
  intros Hg. destruct r as [a | e]; cbn [bind]; [| reflexivity].
  now rewrite map_app, Hg.
Qed.

Lemma line_formation_moved (self : Controller) (dx dy dz : R) :
  line_formation (move_formation self dx dy dz) =
    bind (line_formation self) (fun ps => Ok (map (translate dx dy dz) ps)).
Proof.
  unfold line_formation. moved_centre.
  apply (for_each_mapped (translate dx dy dz) _ _ _) with (s := []).
  intros [i d] s. rewrite truediv_two. translated_body.
Qed.

Lemma circle_formation_moved (self : Controller) (dx dy dz : R) :
  circle_formation (move_formation self dx dy dz) =
    bind (circle_formation self) (fun ps => Ok (map (translate dx dy dz) ps)).
Proof.
  unfold circle_formation. moved_centre.
  apply (for_each_mapped (translate dx dy dz) _ _ _) with (s := []).
  intros [i d] s.
  destruct (truediv (2 * PI * IZR i) (IZR (len (drones self)))) as [angle | e];
    translated_body.
Qed.

Lemma square_formation_moved (self : Controller) (dx dy dz : R) :
  square_formation (move_formation self dx dy dz) =
    bind (square_formation self) (fun ps => Ok (map (translate dx dy dz) ps)).
Proof.
  unfold square_formation. moved_centre. rewrite !truediv_two. cbn [bind].
  apply (for_each_mapped (translate dx dy dz) _ _ _) with (s := []).
  intros [i d] s. destruct (i <? 4)%Z; [| translated_body].
  apply (bind_mapped (translate dx dy dz) _
           (fun pos : Vec3 =>
              (center_x self + fst (fst pos), center_y self + snd (fst pos),
               center_z self))
           (fun pos : Vec3 =>
              (center_x self + dx + fst (fst pos), center_y self + dy + snd (fst pos),
               center_z self + dz))).
  intros pos. unfold translate. cbn [fst snd]. vec_eq.
Qed.

Lemma triangle_formation_moved (self : Controller) (dx dy dz : R) :
  triangle_formation (move_formation self dx dy dz) =
    bind (triangle_formation self) (fun ps => Ok (map (translate dx dy dz) ps)).
Proof.
  unfold triangle_formation. moved_centre.
  match goal with
  | |- for_each ?xs ?body2 ?init2 = bind (for_each ?xs ?body1 ?init1) _ =>
      replace init2 with (map (translate dx dy dz) init1);
      [ apply (for_each_mapped (translate dx dy dz) xs body1 body2) | ]
  end.
  - intros i s. rewrite !truediv_two. cbn [bind]. rewrite !truediv_two.
    translated_body.
  - destruct (1 <=? len (drones self))%Z, (2 <=? len (drones self))%Z,
      (3 <=? len (drones self))%Z; translated_body.
Qed.

Lemma diamond_formation_moved (self : Controller) (dx dy dz : R) :
  diamond_formation (move_formation self dx dy dz) =
    bind (diamond_formation self) (fun ps => Ok (map (translate dx dy dz) ps)).
Proof.
  unfold diamond_formation. moved_centre.
  match goal with
  | |- for_each ?xs ?body2 ?init2 = bind (for_each ?xs ?body1 ?init1) _ =>
      replace init2 with (map (translate dx dy dz) init1);
      [ apply (for_each_mapped (translate dx dy dz) xs body1 body2) | ]
  end.
  - intros i s. translated_body.
  - destruct (1 <=? len (drones self))%Z, (2 <=? len (drones self))%Z,
      (3 <=? len (drones self))%Z, (4 <=? len (drones self))%Z; translated_body.
Qed.

(** X5.  Moving the formation moves every slot of every pattern by the same
    vector: after [move_formation self dx dy dz] each of the five patterns
    yields the positions it yielded before, each shifted by [(dx, dy, dz)],
    and raises exactly when it raised before. *)
Theorem patterns_follow_the_centre (self : Controller) (dx dy dz : R)
  (name : string) (pattern : Controller -> result (list Vec3)) :
  formations !! name = Some pattern ->
  pattern (move_formation self dx dy dz) =
    bind (pattern self) (fun ps => Ok (map (translate dx dy dz) ps)).
Proof.
  unfold formations. intros Hp.
  rewrite lookup_insert in Hp. case_decide;
    [injection Hp as <-; apply line_formation_moved |].
  rewrite lookup_insert in Hp. case_decide;
    [injection Hp as <-; apply triangle_formation_moved |].
  rewrite lookup_insert in Hp. case_decide;
    [injection Hp as <-; apply square_formation_moved |].
  rewrite lookup_insert in Hp. case_decide;
    [injection Hp as <-; apply circle_formation_moved |].
  rewrite lookup_insert in Hp. case_decide;
    [injection Hp as <-; apply diamond_formation_moved |].
  rewrite lookup_empty in Hp. discriminate.
Qed.

Lemma patterns_follow_the_centre_witness :
  circle_formation (move_formation main_fleet 5 0 0) =
    bind (circle_formation main_fleet) (fun ps => Ok (map (translate 5 0 0) ps)).
Proof.
  apply (patterns_follow_the_centre main_fleet 5 0 0 "circle"). reflexivity.
Defined.

End FormationGeometry.

(** ** Sessions *)

Section SessionFacts.
Import Py Drone.
Local Open Scope R_scope.

(** X6.  After [state_callback] the session's [connected] flag is the
    [connected] field of the message, whatever it was before, the message is
    stored as [current_state], and nothing else changes; delivering the same
    message again changes nothing. *)
Theorem state_callback_tracks_message (msg : State) (self : FormationDrone) :
  connected (state_callback msg self) = state_connected msg /\
  current_state (state_callback msg self) = msg /\
  drone_id (state_callback msg self) = drone_id self /\
  namespace (state_callback msg self) = namespace self /\
  position (state_callback msg self) = position self /\
  target_position (state_callback msg self) = target_position self /\
  state_callback msg (state_callback msg self) = state_callback msg self.
Proof.
  unfold state_callback. cbn.
  destruct (connected self), (state_connected msg); cbn; repeat split; reflexivity.
Qed.




(** X8.  [takeoff] never skips a step: a session that is not connected
    sends nothing; an arming request is sent only after the GUIDED mode
    request was answered with success, and a takeoff request only after the
    arming request was answered with success as well.  A successful takeoff
    has sent exactly the three requests, half a second apart. *)
Theorem takeoff_requests_in_order (self : FormationDrone) (altitude : R)
  (w : World) :
  exists evs,
    trace (snd (takeoff self altitude w)) = trace w ++ evs /\
    (connected self = false -> evs = []) /\
    (forall id value, In (CallArming id value) evs ->
       connected self = true /\ exists rs, replies w = Some true :: rs) /\
    (forall id a, In (CallTakeoff id a) evs ->
       connected self = true /\
       exists rs, replies w = Some true :: Some true :: rs) /\
    (fst (takeoff self altitude w) = true -> evs = takeoff_calls altitude self).
Proof.
  destruct w as [rs tr]. rewrite takeoff_frame. cbn [fst snd trace replies].
  exists (trace (snd (takeoff self altitude {| replies := rs; trace := [] |}))).
  split; [reflexivity |].
  unfold takeoff, set_mode, arm, seq_bind, emit, await_result, ret, takeoff_calls.
  destruct (connected self); cbn.
  2:{ repeat split; intros; try contradiction; try discriminate; reflexivity. }
  destruct rs as [|[[|]|] [|[[|]|] [|[[|]|] rs]]]; cbn;
    (split; [discriminate |]);
    (split; [intros id value Hin | split; [intros id a Hin | intros Hok]]);
    repeat match goal with
      | H : _ \/ _ |- _ => destruct H as [H | H]
      | H : False |- _ => contradiction H
      end;
    try discriminate; try reflexivity; eauto.
Qed.

End SessionFacts.

(** ** The coordinator *)

Section CoordinatorFacts.
Import Py Drone.
Local Open Scope R_scope.

Lemma sum_ones_from {A} (l : list A) (a : Z) :
  fold_left Z.add (map (fun _ => 1%Z) l) a = (a + Z.of_nat (length l))%Z.
Proof.
  revert a. induction l as [|x l IH]; intros a; cbn [map fold_left length].
  - lia.
  - rewrite IH. lia.
Qed.

Lemma filter_length_le {A} (f : A -> bool) (l : list A) :
  (length (List.filter f l) <= length l)%nat.
Proof.
  induction l as [|x l IH]; cbn [List.filter length]; [lia |].
  destruct (f x); cbn [length]; lia.
Qed.

Lemma connected_count_full (ds : list FormationDrone) :
  Py.sum (map (fun _ => 1%Z) (List.filter connected ds)) = len ds <->
  Forall (fun d => connected d = true) ds.
Proof.
  unfold Py.sum, len. rewrite sum_ones_from.
  induction ds as [|d ds IH]; cbn [List.filter length].
  - split; [constructor | reflexivity].
  - pose proof (filter_length_le connected ds) as Hle.
    destruct (connected d) eqn:Hd; cbn [length].
    + split.
      * intros H. constructor; [exact Hd | apply IH; lia].
      * intros H. inversion H; subst. apply IH in H3. lia.
    + split; [lia |]. intros H. inversion H; subst. congruence.
Qed.

Lemma alter_keeps_ids (f : FormationDrone -> FormationDrone) (ds : list FormationDrone) :
  (forall d, drone_id (f d) = drone_id d) ->
  forall k, map drone_id (alter f k ds) = map drone_id ds.
Proof.
  intros Hf. induction ds as [|d ds IH]; intros [|k]; cbn; try reflexivity.
  - now rewrite Hf.
  - f_equal. apply IH.
Qed.

Lemma spin_once_keeps (self : Controller) (cb : option (nat * State)) :
  map drone_id (drones (spin_once self cb)) = map drone_id (drones self) /\
  formation_active (spin_once self cb) = formation_active self /\
  formation_center (spin_once self cb) = formation_center self /\
  current_formation (spin_once self cb) = current_formation self /\
  formation_spacing (spin_once self cb) = formation_spacing self.
Proof.
  destruct cb as [[k msg] |]; cbn; repeat split; try reflexivity.
  apply alter_keeps_ids. intros d. reflexivity.
Qed.

(** X9.  [wait_for_connections] returns true only when every registered
    session is connected, and false only at a pass whose loop condition finds
    [timeout] or more elapsed; while neither happens it keeps polling.  The
    callbacks it lets through change connection flags only: the sessions,
    their order and the formation settings are those it started with.  When
    every session is connected already and the first check is in time, it
    returns true at once without spinning. *)
Theorem wait_for_connections_outcome (self : Controller) (timeout start_time : R)
  (env : list Poll) :
  match wait_for_connections self timeout start_time env with
  | Some (ok, self') =>
      (if ok then Forall (fun d => connected d = true) (drones self')
       else Exists (late poll_clock start_time timeout) env) /\
      map drone_id (drones self') = map drone_id (drones self) /\
      formation_active self' = formation_active self /\
      formation_center self' = formation_center self /\
      current_formation self' = current_formation self /\
      formation_spacing self' = formation_spacing self
  | None => ~ Exists (late poll_clock start_time timeout) env
  end /\
  (forall p env',
      env = p :: env' ->
      poll_clock p - start_time < timeout ->
      Forall (fun d => connected d = true) (drones self) ->
      wait_for_connections self timeout start_time env = Some (true, self)).
Proof.
  unfold wait_for_connections. split.
  - revert self. induction env as [|p env IH]; intros self; cbn [wait_for_connections_loop].
    + intros H. inversion H.
    + destruct (Py.lt (poll_clock p - start_time) timeout) eqn:Hin.
      2:{ apply lt_false in Hin. repeat split; try reflexivity. now constructor 1. }
      apply lt_true in Hin.
      destruct (Py.sum (map (fun _ => 1%Z) (List.filter connected (drones self)))
                =? len (drones self))%Z eqn:Hall.
      { apply Z.eqb_eq, connected_count_full in Hall. repeat split; auto. }
      specialize (IH (spin_once self (poll_callback p))).
      destruct (spin_once_keeps self (poll_callback p)) as (Hids & Ha & Hc & Hf & Hs).
      destruct (wait_for_connections_loop (spin_once self (poll_callback p))
                  timeout start_time env) as [[ok self'] |].
      * destruct IH as (Hok & Hids' & Ha' & Hc' & Hf' & Hs').
        repeat split; try congruence.
        destruct ok; [exact Hok | now constructor 2].
      * intros H. inversion H; subst; [unfold late in *; lra | contradiction].
  - intros p env' -> Hin Hall. cbn [wait_for_connections_loop].
    rewrite (proj2 (lt_true _ _) Hin).
    apply connected_count_full, Z.eqb_eq in Hall. now rewrite Hall.
Qed.

Lemma wait_for_connections_outcome_witness :
  wait_for_connections online_fleet 30 100
    [{| poll_clock := 100; poll_callback := None |}] = Some (true, online_fleet).
Proof.
  apply (proj2 (wait_for_connections_outcome online_fleet 30 100
                  [{| poll_clock := 100; poll_callback := None |}])
           {| poll_clock := 100; poll_callback := None |} []).
  - reflexivity.
  - cbn. lra.
  - cbn. repeat (apply List.Forall_cons; [reflexivity |]). apply List.Forall_nil.
Defined.

Lemma set_formation_run (self : Controller) (name : string) :
  set_formation self name =
    if bool_decide (In name ["line"; "triangle"; "square"; "circle"; "diamond"])
    then (true, with_formation self name)
    else (false, self).
Proof.
  unfold set_formation. pose proof (formations_names name) as Hnames.
  destruct (formations !! name) as [f |] eqn:Hf.
  - rewrite bool_decide_true; [reflexivity |]. apply Hnames. eauto.
  - rewrite bool_decide_false; [reflexivity |].
    intros Hin. apply Hnames in Hin as [f Hf']. congruence.
Qed.

(** X10.  [set_formation] accepts exactly the five pattern names: for one of
    them it returns true and makes it the current formation, for any other
    name it returns false and changes nothing.  So a current formation that
    is a key of the dictionary stays one, and drones, centre, spacing and the
    active flag are never touched. *)
Theorem set_formation_known_names_only (self : Controller) (name : string) :
  let r := set_formation self name in
  (fst r = true <-> In name ["line"; "triangle"; "square"; "circle"; "diamond"]) /\
  (fst r = true -> current_formation (snd r) = name) /\
  (fst r = false -> snd r = self) /\
  (is_Some (formations !! current_formation self) ->
   is_Some (formations !! current_formation (snd r))) /\
  drones (snd r) = drones self /\
  formation_active (snd r) = formation_active self /\
  formation_center (snd r) = formation_center self /\
  formation_spacing (snd r) = formation_spacing self.
Proof.
  cbn zeta. rewrite set_formation_run.
  destruct (bool_decide (In name ["line"; "triangle"; "square"; "circle"; "diamond"]))
    eqn:Hd.
  - apply bool_decide_eq_true in Hd. cbn [fst snd].
    repeat split; try reflexivity; try discriminate; auto.
    intros _. cbn. now apply formations_names.
  - apply bool_decide_eq_false in Hd. cbn [fst snd].
    repeat split; try reflexivity; try discriminate; auto.
Qed.






(** X12.  Once [stop_formation] or [land_formation] has run, the control
    loop is silent: a pass of [formation_control_loop] on the controller
    they leave publishes nothing and changes nothing, so the zero setpoints
    of [stop_formation] are not overwritten by the next tick.  The same
    holds while no drone is registered. *)
Theorem formation_control_loop_silent_after_stop (self : Controller) (w : World) :
  (let stopped := stop_formation self w in
   formation_control_loop (fst stopped) (snd stopped)
   = (Returned (fst stopped), snd stopped)) /\
  (let landed := land_formation self w in
   formation_control_loop (fst landed) (snd landed)
   = (Returned (fst landed), snd landed)) /\
  (drones self = [] -> formation_control_loop self w = (Returned self, w)).
Proof.
  split; [| split].
  - cbn zeta. rewrite stop_formation_run. reflexivity.
  - cbn zeta. unfold land_formation, seq_bind.
    destruct (for_eachM _ _ tt w) as [u w']. reflexivity.
  - intros Hnone. unfold formation_control_loop. rewrite Hnone.
    now rewrite orb_true_r.
Qed.

Lemma land_run (self : FormationDrone) (w : World) :
  land self w =
    (tt, if connected self
         then {| replies := tl (replies w);
                 trace := trace w ++ [CallSetMode (drone_id self) "LAND"] |}
         else w).
Proof.
  unfold land, set_mode, seq_bind, emit, await_result, ret.
  destruct (connected self); cbn; [| reflexivity].
  now destruct (replies w).
Qed.

Lemma land_formation_pass (n : Z) (ds : list FormationDrone) :
  forall (i : Z) (w : World),
    for_eachM (enumerate_from i ds)
      (fun '(i, drone) (_ : unit) =>
         seq_bind (land drone)
           (fun _ => if (i <? n - 1)%Z then emit (Sleep 2.0) else ret tt))
      tt w =
      (tt, {| replies := skipn (length (List.filter connected ds)) (replies w);
              trace := trace w ++ staggered_landings n i ds |}).
Proof.
  induction ds as [|d ds IH]; intros i w.
  - cbn. rewrite app_nil_r. now destruct w.
  - cbn [enumerate_from for_eachM]. unfold seq_bind at 1. unfold seq_bind at 1.
    rewrite land_run.
    cbn [List.filter staggered_landings].
    destruct (connected d), (i <? n - 1)%Z; cbn [emit ret length]; rewrite IH;
      cbn [replies trace]; rewrite <- ?app_assoc; cbn [app];
      try (destruct (replies w); [now rewrite ?skipn_nil | reflexivity]);
      reflexivity.
Qed.

(** X13.  [land_formation] is best effort: it asks every connected session
    for LAND mode in registration order, sleeps two seconds after every
    session but the last, ignores every answer, and clears
    [formation_active].  The events do not depend on the replies; a session
    that is not connected gets no request at all. *)
Theorem land_formation_best_effort (self : Controller) (w : World) :
  fst (land_formation self w) = with_active self false /\
  trace (snd (land_formation self w)) =
    trace w ++ staggered_landings (len (drones self)) 0 (drones self) /\
  replies (snd (land_formation self w)) =
    skipn (length (List.filter connected (drones self))) (replies w) /\
  (forall replies',
      trace (snd (land_formation self {| replies := replies'; trace := trace w |}))
      = trace (snd (land_formation self w))).
Proof.
  assert (Hrun : forall w0,
    land_formation self w0 =
      (with_active self false,
       {| replies := skipn (length (List.filter connected (drones self))) (replies w0);
          trace := trace w0 ++ staggered_landings (len (drones self)) 0 (drones self) |})).
  { intros w0. unfold land_formation, enumerate. unfold seq_bind at 1.
    now rewrite (land_formation_pass (len (drones self)) (drones self) 0 w0). }
  rewrite !Hrun. cbn [fst snd trace replies].
  repeat split. intros replies'. now rewrite Hrun.
Qed.

Lemma takeoff_formation_loop_failure (altitude : R) (ds : list FormationDrone) :
  forall (i : Z) (w : World),
    fst (takeoff_formation_loop altitude (enumerate_from i ds) w) = false ->
    exists pre d post rs,
      ds = pre ++ d :: post /\
      Forall (fun d => connected d = true) pre /\
      replies w = repeat (Some true) (3 * length pre) ++ rs /\
      fst (takeoff d altitude {| replies := rs; trace := [] |}) = false.
Proof.
  induction ds as [|d ds IH]; intros i w Hfalse.
  - cbn in Hfalse. discriminate.
  - cbn [enumerate_from] in Hfalse. rewrite takeoff_formation_loop_cons in Hfalse.
    cbn zeta in Hfalse.
    destruct (fst (takeoff d altitude {| replies := replies w; trace := [] |}))
      eqn:Hd.
    + pose proof Hd as Hinv.
      apply takeoff_true_inv in Hinv as [Hc [rs Hrs]]. cbn [replies] in Hrs.
      rewrite Hrs in Hfalse. rewrite takeoff_acknowledged in Hfalse by exact Hc.
      cbn [fst snd replies] in Hfalse.
      apply IH in Hfalse as (pre & d' & post & rs' & -> & Hpre & Hrep & Hfail).
      cbn [replies] in Hrep.
      exists (d :: pre), d', post, rs'. split; [reflexivity |].
      split; [now constructor |]. split; [| exact Hfail].
      cbn [length]. rewrite Hrs, repeat_three_more, Hrep. reflexivity.
    + exists [], d, ds, (replies w). repeat split; [constructor | exact Hd].
Qed.

(** X14.  When [takeoff_formation] returns false, one drone is to blame:
    the drones split into those before it, all connected and all taken off
    with every call acknowledged, the drone whose own takeoff failed on the
    replies left for it, and the drones after it. *)
Theorem takeoff_formation_failure_has_culprit (self : Controller) (altitude : R)
  (w : World) :
  fst (takeoff_formation self altitude w) = false ->
  exists pre d post rs,
    drones self = pre ++ d :: post /\
    Forall (fun d => connected d = true) pre /\
    replies w = repeat (Some true) (3 * length pre) ++ rs /\
    fst (takeoff d altitude {| replies := rs; trace := [] |}) = false.
Proof. apply takeoff_formation_loop_failure. Qed.

Lemma takeoff_formation_failure_has_culprit_witness :
  exists pre d post rs,
    drones online_fleet = pre ++ d :: post /\
    Forall (fun d => connected d = true) pre /\
    [Some true; Some true; Some true; Some true; None]
      = repeat (Some true) (3 * length pre) ++ rs /\
    fst (takeoff d 10 {| replies := rs; trace := [] |}) = false.
Proof.
  apply (takeoff_formation_failure_has_culprit online_fleet 10
           {| replies := [Some true; Some true; Some true; Some true; None];
              trace := [] |}).
  reflexivity.
Defined.

End CoordinatorFacts.

(** ** The single-drone controller *)

Section FlightControllerFacts.
Import FlightController.
Local Open Scope R_scope.

Lemma poll_until_outcome {A} (clock : A -> R) (hit : A -> bool)
  (start_time limit : R) (env : list A) :
  let r := poll_until clock hit start_time limit env in
  let found := Exists (fun t => hit t = true) (within clock start_time limit env) in
  let closed := Exists (late clock start_time limit) env in
  (r = Some true <-> found) /\
  (r = Some false <-> ~ found /\ closed) /\
  (r = None <-> ~ found /\ ~ closed).
Proof.
  cbn zeta.
  assert (Hcases :
    (poll_until clock hit start_time limit env = Some true /\
     Exists (fun t => hit t = true) (within clock start_time limit env)) \/
    (poll_until clock hit start_time limit env = Some false /\
     ~ Exists (fun t => hit t = true) (within clock start_time limit env) /\
     Exists (late clock start_time limit) env) \/
    (poll_until clock hit start_time limit env = None /\
     ~ Exists (fun t => hit t = true) (within clock start_time limit env) /\
     ~ Exists (late clock start_time limit) env)).
  { induction env as [|t env IH]; cbn [poll_until within].
    - right. right. repeat split; intros H; inversion H.
    - destruct (Rlt_dec (clock t - start_time) limit) as [Hin | Hout].
      + destruct (hit t) eqn:Hhit.
        * left. split; [reflexivity | now constructor 1].
        * assert (Hhere : ~ late clock start_time limit t) by (unfold late; lra).
          destruct IH as [[Hr Hf] | [[Hr [Hf Hc]] | [Hr [Hf Hc]]]].
          -- left. split; [exact Hr | now constructor 2].
          -- right. left. split; [exact Hr |]. split; [| now constructor 2].
             intros H. inversion H; subst; [congruence | contradiction].
          -- right. right. split; [exact Hr |]. split.
             ++ intros H. inversion H; subst; [congruence | contradiction].
             ++ intros H. inversion H; subst; contradiction.
      + right. left. split; [reflexivity |]. split.
        * intros H. inversion H.
        * constructor 1. unfold late. lra. }
  destruct Hcases as [[-> Hf] | [[-> [Hf Hc]] | [-> [Hf Hc]]]];
    repeat split; intros; try discriminate; tauto.
Qed.

Lemma arm_loop_polls (start_time : R) (env : list HeartbeatTick) :
  arm_loop start_time env =
    poll_until hb_clock
      (fun t => match hb_msg t with
                | Some m => Z.testbit (base_mode m) 7
                | None => false
                end)
      start_time 10 env.
Proof.
  induction env as [|t env IH]; cbn [arm_loop poll_until]; [reflexivity |].
  unfold Py.lt. destruct (Rlt_dec (hb_clock t - start_time) 10); [| reflexivity].
  destruct (hb_msg t) as [m |]; [| exact IH].
  rewrite armed_flag_test, negb_involutive.
  destruct (Z.testbit (base_mode m) 7); [reflexivity | exact IH].
Qed.

Lemma wait_for_gps_polls (timeout start_time : R) (env : list GpsTick) :
  wait_for_gps timeout start_time env =
    poll_until gps_clock
      (fun t => match gps_msg t with
                | Some m => (3 <=? fix_type m)%Z && (6 <=? satellites_visible m)%Z
                | None => false
                end)
      start_time timeout env.
Proof.
  unfold wait_for_gps.
  induction env as [|t env IH]; cbn [wait_for_gps_loop poll_until]; [reflexivity |].
  unfold Py.lt. destruct (Rlt_dec (gps_clock t - start_time) timeout); [| reflexivity].
  destruct (gps_msg t) as [m |]; [| exact IH].
  destruct ((3 <=? fix_type m)%Z && (6 <=? satellites_visible m)%Z);
    [reflexivity | exact IH].
Qed.

Lemma Exists_iff {A} (P Q : A -> Prop) (l : list A) :
  (forall x, P x <-> Q x) -> Exists P l <-> Exists Q l.
Proof.
  intros H. rewrite !List.Exists_exists.
  split; intros [x [Hin Hx]]; exists x; (split; [exact Hin | now apply H]).
Qed.

(** X15.  [DroneController.arm] sends one arm command and then returns true
    exactly when a heartbeat with the armed flag set is received at a pass
    that starts less than 10 seconds after the start, false exactly when
    none is and a pass finds the 10 seconds elapsed; it sends nothing else,
    whatever the outcome. *)
Theorem arm_outcome (self : Master) (start_time : R) (env : list HeartbeatTick) :
  let r := fst (arm self start_time env) in
  let armed := Exists (fun t => armed_heartbeat (hb_msg t))
                 (within hb_clock start_time 10 env) in
  let closed := Exists (late hb_clock start_time 10) env in
  (r = Some true <-> armed) /\
  (r = Some false <-> ~ armed /\ closed) /\
  (r = None <-> ~ armed /\ ~ closed) /\
  snd (arm self start_time env) =
    [ CommandLongSend (target_system self) (target_component self) 400 0
        [1; 0; 0; 0; 0; 0; 0] ].
Proof.
  cbn zeta. unfold arm. cbn [fst snd]. rewrite arm_loop_polls.
  pose proof (poll_until_outcome hb_clock
                (fun t => match hb_msg t with
                          | Some m => Z.testbit (base_mode m) 7
                          | None => false
                          end) start_time 10 env) as Hout.
  cbn zeta in Hout.
  assert (Hhit : Exists (fun t => match hb_msg t with
                                  | Some m => Z.testbit (base_mode m) 7
                                  | None => false
                                  end = true) (within hb_clock start_time 10 env)
                 <-> Exists (fun t => armed_heartbeat (hb_msg t))
                       (within hb_clock start_time 10 env)).
  { apply Exists_iff. intros t. unfold armed_heartbeat.
    destruct (hb_msg t) as [m |].
    - split; [eauto | intros [m' [Hm H]]; now injection Hm as <-].
    - split; [discriminate | intros [m' [Hm _]]; discriminate]. }
  cbv beta in Hout. destruct Hout as (Htrue & Hfalse & Hnone).
  rewrite <- Hhit.
  split; [exact Htrue |]. split; [exact Hfalse |]. split; [exact Hnone | reflexivity].
Qed.

(** X16.  [wait_for_gps] returns true exactly when a GPS message with fix
    type at least 3 and at least 6 satellites is received at a pass that
    starts less than [timeout] seconds after the start, and false exactly
    when none is and a pass finds [timeout] elapsed. *)
Theorem wait_for_gps_outcome (timeout start_time : R) (env : list GpsTick) :
  let r := wait_for_gps timeout start_time env in
  let locked := Exists (fun t => gps_lock (gps_msg t))
                  (within gps_clock start_time timeout env) in
  let closed := Exists (late gps_clock start_time timeout) env in
  (r = Some true <-> locked) /\
  (r = Some false <-> ~ locked /\ closed) /\
  (r = None <-> ~ locked /\ ~ closed).
Proof.
  cbn zeta. rewrite wait_for_gps_polls.
  pose proof (poll_until_outcome gps_clock
                (fun t => match gps_msg t with
                          | Some m => (3 <=? fix_type m)%Z && (6 <=? satellites_visible m)%Z
                          | None => false
                          end) start_time timeout env) as Hout.
  cbn zeta in Hout.
  assert (Hhit : Exists (fun t => match gps_msg t with
                                  | Some m => (3 <=? fix_type m)%Z
                                              && (6 <=? satellites_visible m)%Z
                                  | None => false
                                  end = true) (within gps_clock start_time timeout env)
                 <-> Exists (fun t => gps_lock (gps_msg t))
                       (within gps_clock start_time timeout env)).
  { apply Exists_iff. intros t. unfold gps_lock.
    destruct (gps_msg t) as [m |].
    - rewrite andb_true_iff, !Z.leb_le. split.
      + intros [H3 H6]. eauto.
      + intros [m' [Hm H]]. now injection Hm as <-.
    - split; [discriminate | intros [m' [Hm _]]; discriminate]. }
  cbv beta in Hout. rewrite <- Hhit. exact Hout.
Qed.


Lemma paced_clock (env : list Tick) :
  forall (previous : R) (k : nat) (t : Tick),
    paced previous env ->
    nth_error env k = Some t ->
    previous + 1 + INR k <= tick_clock t.
Proof.
  induction env as [|t0 env IH]; intros previous [|k] t Hp Hnth;
    cbn [nth_error] in Hnth; try discriminate.
  - injection Hnth as <-. destruct Hp as [H0 _]. cbn [INR]. lra.
  - destruct Hp as [H0 Hrest].
    pose proof (IH _ _ _ Hrest Hnth) as Hk.
    rewrite S_INR. lra.
Qed.

(** X18.  [takeoff] cannot wait for ever when the clock runs: if the first
    pass of its loop starts at or after the start time and every pass starts
    at least one second after the one before (each pass ends with a
    one-second sleep), the call has returned by the thirty-first pass. *)
Theorem takeoff_decides_within_31_passes (self : Master) (altitude : float)
  (start_time : R) (env : list Tick) :
  (31 <= length env)%nat ->
  paced (start_time - 1) env ->
  fst (takeoff self altitude start_time env) <> None.
Proof.
  intros Hlen Hpaced Hnone.
  assert (Hr : fst (takeoff self altitude start_time env)
               = fst (takeoff_loop altitude start_time
                        (Z.of_nat (steady_run [0%float])) 0%float env)).
  { unfold takeoff. change (Z.of_nat (steady_run [0%float])) with 0%Z.
    now destruct (takeoff_loop altitude start_time 0 0%float env). }
  rewrite Hr in Hnone.
  pose proof (takeoff_loop_outcome altitude start_time env 0%float []) as Hout.
  unfold loop_outcome in Hout. cbn zeta in Hout. rewrite Hnone in Hout.
  destruct Hout as [[Habs _] | [[Habs _] | [_ [_ Hopen]]]]; try discriminate.
  apply Hopen.
  destruct (nth_error env 30) as [t |] eqn:Ht;
    [| apply nth_error_None in Ht; lia].
  apply List.Exists_exists. exists t. split; [eapply nth_error_In; eauto |].
  pose proof (paced_clock env _ _ _ Hpaced Ht) as Hclock.
  unfold timed_out. replace (INR 30) with 30 in Hclock by (simpl; lra). lra.
Qed.

Lemma takeoff_decides_within_31_passes_witness :
  fst (takeoff {| target_system := 1; target_component := 1 |} 10 0
         one_second_passes) <> None.
Proof.
  apply takeoff_decides_within_31_passes.
  - cbn. lia.
  - unfold one_second_passes, pass_at. cbn. repeat split;
      repeat match goal with
        | |- context [Z.of_nat ?n] =>
            let z := eval vm_compute in (Z.of_nat n) in
            change (Z.of_nat n) with z
        end; lra.
Defined.

End FlightControllerFacts.

(** ** Fixed slots of the triangle and the diamond *)

Section FixedSlots.
Import Py Drone.
Local Open Scope R_scope.

(** X19.  With fewer drones than fixed slots neither pattern fails: the
    triangle uses the first [n] of its three fixed slots (leader on the
    centre, left and right wing one spacing behind and to either side), the
    diamond the first [n] of its four (front, left, right, tail, each one
    spacing from the centre); with more drones these slots stay where they
    are. *)
Theorem fixed_slots_are_a_prefix (self : Controller) :
  let n := length (drones self) in
  let s := formation_spacing self in
  exists triangle diamond,
    triangle_formation self = Ok triangle /\
    diamond_formation self = Ok diamond /\
    firstn 3 triangle =
      firstn n [ (center_x self, center_y self, center_z self);
                 (center_x self - s, center_y self - s, center_z self);
                 (center_x self - s, center_y self + s, center_z self) ] /\
    firstn 4 diamond =
      firstn n [ (center_x self + s, center_y self, center_z self);
                 (center_x self, center_y self - s, center_z self);
                 (center_x self, center_y self + s, center_z self);
                 (center_x self - s, center_y self, center_z self) ].
Proof.
  cbn zeta.
  assert (Htri : exists triangle,
    triangle_formation self = Ok triangle /\
    firstn 3 triangle =
      firstn (length (drones self))
        [ (center_x self, center_y self, center_z self);
          (center_x self - formation_spacing self,
           center_y self - formation_spacing self, center_z self);
          (center_x self - formation_spacing self,
           center_y self + formation_spacing self, center_z self) ]).
  { destruct (Z_lt_le_dec (len (drones self)) 3) as [Hsmall | Hbig].
    - unfold triangle_formation, len in *.
      destruct (drones self) as [|d0 [|d1 [|d2 ds]]]; cbn in Hsmall; try lia;
        eexists; split; reflexivity.
    - eexists. split; [apply triangle_formation_rear; exact Hbig |].
      unfold len in Hbig.
      destruct (drones self) as [|d0 [|d1 [|d2 ds]]]; cbn in Hbig; try lia.
      cbn [length firstn app]. now rewrite firstn_nil. }
  assert (Hdia : exists diamond,
    diamond_formation self = Ok diamond /\
    firstn 4 diamond =
      firstn (length (drones self))
        [ (center_x self + formation_spacing self, center_y self, center_z self);
          (center_x self, center_y self - formation_spacing self, center_z self);
          (center_x self, center_y self + formation_spacing self, center_z self);
          (center_x self - formation_spacing self, center_y self, center_z self) ]).
  { destruct (Z_lt_le_dec (len (drones self)) 4) as [Hsmall | Hbig].
    - unfold diamond_formation, len in *.
      destruct (drones self) as [|d0 [|d1 [|d2 [|d3 ds]]]]; cbn in Hsmall; try lia;
        eexists; split; reflexivity.
    - eexists. split; [apply diamond_formation_stack; exact Hbig |].
      unfold len in Hbig.
      destruct (drones self) as [|d0 [|d1 [|d2 [|d3 ds]]]]; cbn in Hbig; try lia.
      cbn [length firstn app]. now rewrite firstn_nil. }
  destruct Htri as [triangle [Ht Ht3]]. destruct Hdia as [diamond [Hd Hd4]].
  exists triangle, diamond. auto.
Qed.

End FixedSlots.
